(** * External command execution of the assistant

    A shallow embedding of [assistant/tools/windows_automator.py] and
    [assistant/tools/vm_manager.py]: the two executors built on
    [subprocess.run] and the VirtualBox / VMware operations on top of them.

    Python text is a sequence of Unicode code points, captured process
    output is a sequence of bytes, and the operating system is an explicit
    parameter that says which programs can be located and what a started
    process does before the deadline.  Console warnings printed by the
    functions are not part of their results and are left out. *)

From Stdlib Require Import ZArith NArith List Bool Lia.
From Stdlib Require Import Strings.String Strings.Byte Numbers.DecimalString.
Import ListNotations.

Set Implicit Arguments.

(** ** Python text *)

Module Text.

Local Open Scope N_scope.

(** A [str] is the list of its code points. *)
Definition str := list N.

Definition bytes := list byte.

Fixpoint eqb (a b : str) : bool :=
  match a, b with
  | [], [] => true
  | x :: a', y :: b' => N.eqb x y && eqb a' b'
  | _, _ => false
  end.

(** [str.isspace] for one character: the characters [str.strip] removes. *)
Definition isspace (c : N) : bool :=
  ((9 <=? c) && (c <=? 13)) || ((28 <=? c) && (c <=? 32))
  || (c =? 133) || (c =? 160) || (c =? 5760)
  || ((8192 <=? c) && (c <=? 8202))
  || (c =? 8232) || (c =? 8233) || (c =? 8239) || (c =? 8287)
  || (c =? 12288).

Fixpoint lstrip (s : str) : str :=
  match s with
  | [] => []
  | c :: r => if isspace c then lstrip r else s
  end.

Definition rstrip (s : str) : str := rev (lstrip (rev s)).

Definition strip (s : str) : str := rstrip (lstrip s).

(** [t] occurs in [s] as a contiguous piece. *)
Definition contains (s t : str) : Prop :=
  exists pre post, s = pre ++ t ++ post.

(** *** Decoding captured bytes *)

(** The fields of Python's [UnicodeDecodeError] that its text is built
    from: the slice [start, stop) of the input, the byte at [start] and
    the reason. *)
Record DecodeError := {
  codec : str;
  bad_byte : N;
  start : N;
  stop : N;
  reason : str
}.

Definition continuation (b : N) : bool := (128 <=? b) && (b <? 192).

Definition low6 (b : N) : N := N.land b 63.

Section Utf8.

(** ASCII spellings used only inside the decoder's diagnostics. *)
Variable name invalid_start invalid_continuation unexpected_end : str.

Definition failure (ch pos len : N) (why : str) : str + DecodeError :=
  inr {| codec := name; bad_byte := ch; start := pos; stop := pos + len;
         reason := why |}.

Definition emit (c : N) (r : str + DecodeError) : str + DecodeError :=
  match r with
  | inl s => inl (c :: s)
  | inr e => inr e
  end.

(** Strict UTF-8, as the codec of CPython decodes it: shortest forms only,
    no surrogates, nothing above U+10FFFF; the first offending sequence is
    reported. *)
Fixpoint utf8_from (pos : N) (bs : list N) : str + DecodeError :=
  match bs with
  | [] => inl []
  | ch :: r1 =>
    if ch <? 128 then emit ch (utf8_from (pos + 1) r1)
    else if ch <? 194 then failure ch pos 1 invalid_start
    else if ch <? 224 then
      match r1 with
      | [] => failure ch pos 1 unexpected_end
      | c2 :: r2 =>
        if continuation c2
        then emit (N.shiftl (N.land ch 31) 6 + low6 c2) (utf8_from (pos + 2) r2)
        else failure ch pos 1 invalid_continuation
      end
    else if ch <? 240 then
      match r1 with
      | [] => failure ch pos 1 unexpected_end
      | c2 :: r2 =>
        if negb (continuation c2) || (if c2 <? 160 then ch =? 224 else ch =? 237)
        then failure ch pos 1 invalid_continuation
        else
          match r2 with
          | [] => failure ch pos 2 unexpected_end
          | c3 :: r3 =>
            if continuation c3
            then emit (N.shiftl (N.land ch 15) 12 + N.shiftl (low6 c2) 6 + low6 c3)
                      (utf8_from (pos + 3) r3)
            else failure ch pos 2 invalid_continuation
          end
      end
    else if ch <? 245 then
      match r1 with
      | [] => failure ch pos 1 unexpected_end
      | c2 :: r2 =>
        if negb (continuation c2) || (if c2 <? 144 then ch =? 240 else ch =? 244)
        then failure ch pos 1 invalid_continuation
        else
          match r2 with
          | [] => failure ch pos 2 unexpected_end
          | c3 :: r3 =>
            if negb (continuation c3) then failure ch pos 2 invalid_continuation
            else
              match r3 with
              | [] => failure ch pos 3 unexpected_end
              | c4 :: r4 =>
                if continuation c4
                then emit (N.shiftl (N.land ch 7) 18 + N.shiftl (low6 c2) 12
                           + N.shiftl (low6 c3) 6 + low6 c4)
                          (utf8_from (pos + 4) r4)
                else failure ch pos 3 invalid_continuation
              end
          end
      end
    else failure ch pos 1 invalid_start
  end.

End Utf8.

(** Text written with ASCII characters only. *)
Definition ascii_lit (s : string) : str := map Byte.to_N (list_byte_of_string s).

Definition utf8_decode (bs : bytes) : str + DecodeError :=
  utf8_from (ascii_lit "utf-8") (ascii_lit "invalid start byte")
            (ascii_lit "invalid continuation byte")
            (ascii_lit "unexpected end of data") 0 (map Byte.to_N bs).

(** A string literal of the source: the literals below are written in
    UTF-8, as the source file is. *)
Definition lit (s : string) : str :=
  match utf8_decode (list_byte_of_string s) with
  | inl t => t
  | inr _ => []
  end.

(** The upper half of code page 850. *)
Definition cp850_high : list N :=
  [199; 252; 233; 226; 228; 224; 229; 231; 234; 235; 232; 239; 238; 236; 196; 197;
   201; 230; 198; 244; 246; 242; 251; 249; 255; 214; 220; 248; 163; 216; 215; 402;
   225; 237; 243; 250; 241; 209; 170; 186; 191; 174; 172; 189; 188; 161; 171; 187;
   9617; 9618; 9619; 9474; 9508; 193; 194; 192; 169; 9571; 9553; 9559; 9565; 162; 165; 9488;
   9492; 9524; 9516; 9500; 9472; 9532; 227; 195; 9562; 9556; 9577; 9574; 9568; 9552; 9580; 164;
   240; 208; 202; 203; 200; 305; 205; 206; 207; 9496; 9484; 9608; 9604; 166; 204; 9600;
   211; 223; 212; 210; 245; 213; 181; 254; 222; 218; 219; 217; 253; 221; 175; 180;
   173; 177; 8215; 190; 182; 167; 247; 184; 176; 168; 183; 185; 179; 178; 9632; 160]%N.

Definition cp850_char (b : N) : N :=
  if b <? 128 then b else nth (N.to_nat (b - 128)) cp850_high 0%N.

(** Code page 850 gives every byte a character, so decoding cannot fail. *)
Definition cp850_decode (bs : bytes) : str := map (fun b => cp850_char (Byte.to_N b)) bs.

(** The encodings the two executors name in their [subprocess.run] calls. *)
Inductive Encoding := cp850 | utf_8.

Definition decode (enc : Encoding) (bs : bytes) : str + DecodeError :=
  match enc with
  | cp850 => inl (cp850_decode bs)
  | utf_8 => utf8_decode bs
  end.

(** Text mode reads with universal newlines: CR LF and a lone CR both
    arrive as LF. *)
Fixpoint translate_newlines (s : str) : str :=
  match s with
  | [] => []
  | 13 :: r =>
    10 :: match r with
          | 10 :: r' => translate_newlines r'
          | _ => translate_newlines r
          end
  | c :: r => c :: translate_newlines r
  end%N.

(** *** Formatting *)

(** [str(n)] for an integer. *)
Definition str_of_int (n : Z) : str := ascii_lit (NilZero.string_of_int (Z.to_int n)).

Definition hex_digit (d : N) : N := if d <? 10 then 48 + d else 87 + d.

(** [str(e)] for a [UnicodeDecodeError]. *)
Definition str_of_decode_error (e : DecodeError) : str :=
  if stop e - start e =? 1 then
    ascii_lit "'" ++ codec e ++ ascii_lit "' codec can't decode byte 0x"
    ++ [hex_digit (bad_byte e / 16); hex_digit (bad_byte e mod 16)]
    ++ ascii_lit " in position " ++ str_of_int (Z.of_N (start e))
    ++ ascii_lit ": " ++ reason e
  else
    ascii_lit "'" ++ codec e ++ ascii_lit "' codec can't decode bytes in position "
    ++ str_of_int (Z.of_N (start e)) ++ ascii_lit "-"
    ++ str_of_int (Z.of_N (stop e - 1))
    ++ ascii_lit ": " ++ reason e.

(** *** Searching *)

(** [s.startswith(prefix)]. *)
Fixpoint startswith (prefix s : str) : bool :=
  match prefix, s with
  | [], _ => true
  | _ :: _, [] => false
  | p :: prefix', c :: s' => (p =? c) && startswith prefix' s'
  end.

(** [needle in s]. *)
Fixpoint occurs (needle s : str) : bool :=
  startswith needle s
  || match s with
     | [] => false
     | _ :: s' => occurs needle s'
     end.

(** A text that neither begins nor ends with a whitespace character. *)
Definition trimmed (s : str) : Prop :=
  match s with
  | [] => True
  | c :: _ => isspace c = false
  end
  /\ match rev s with
     | [] => True
     | c :: _ => isspace c = false
     end.

End Text.

(** ** Exceptions, child processes and [subprocess.run] *)

Module Host.

Import Text.

(** The exceptions the executors tell apart: the two classes they name in
    their [except] clauses, and any other [Exception], of which only the
    text [str(e)] is used. *)
Inductive Exn :=
| FileNotFoundError
| TimeoutExpired
| Exception (text : str).

Inductive Outcome (A : Type) :=
| Return (value : A)
| Raise (e : Exn).

Arguments Return {A} value.
Arguments Raise {A} e.

(** One call of [subprocess.run(args, capture_output=True, text=True,
    encoding=..., timeout=..., check=False)]. *)
Record RunRequest := {
  args : list str;
  encoding : Encoding;
  timeout : Z
}.

(** What [subprocess.run] hands back.  A captured stream is a text, or
    [None] where the reading of it came to nothing. *)
Record CompletedProcess := {
  returncode : Z;
  stdout : option str;
  stderr : option str
}.

(** What a started process does with the time it is given. *)
Inductive Child :=
| Exits (code : Z) (out err : bytes)   (* exits before the deadline *)
| StillRunning                         (* has not exited when it elapses *)
| Refused (detail : str).              (* the launch fails with another OS error *)

(** The machine the code runs on: which program names can be located,
    what the process started from an argument vector does within a
    deadline given in seconds, and whether the system is Windows (the
    [IS_WINDOWS] of the source), where CPython reads the pipes of a child
    in threads of their own. *)
Record OS := {
  located : str -> bool;
  child : list str -> Z -> Child;
  is_windows : bool
}.

(** The part of the machine a call changes: the [subprocess.run] calls
    made so far (oldest first), the number of processes created so far
    (the next process gets it as its id), and the ids of the child
    processes still running. *)
Record Procs := {
  calls : list RunRequest;
  next_pid : nat;
  running : list nat
}.

Definition M (A : Type) : Type := Procs -> Outcome A * Procs.

Definition ret {A} (a : A) : M A := fun st => (Return a, st).

Definition raise {A} (e : Exn) : M A := fun st => (Raise e, st).

Definition bind {A B} (m : M A) (k : A -> M B) : M B :=
  fun st =>
    match m st with
    | (Return a, st') => k a st'
    | (Raise e, st') => (Raise e, st')
    end.

(** [try: body except ...: handler]. *)
Definition try {A} (body : M A) (handler : Exn -> M A) : M A :=
  fun st =>
    match body st with
    | (Raise e, st') => handler e st'
    | r => r
    end.

Declare Scope py_scope.
Delimit Scope py_scope with py.

Notation "x <- m ;; k" := (bind m (fun x => k))
  (at level 61, m at next level, right associativity) : py_scope.
Notation "m ;; k" := (bind m (fun _ => k))
  (at level 61, right associativity) : py_scope.

Local Open Scope py_scope.

Definition record (req : RunRequest) : M unit :=
  fun st => (Return tt, {| calls := calls st ++ [req];
                           next_pid := next_pid st;
                           running := running st |}).

(** Creating a process. *)
Definition spawn : M nat :=
  fun st => (Return (next_pid st),
             {| calls := calls st;
                next_pid := S (next_pid st);
                running := next_pid st :: running st |}).

Definition without (pid : nat) (l : list nat) : list nat :=
  filter (fun p => negb (Nat.eqb p pid)) l.

(** The process has exited by itself and is collected. *)
Definition wait (pid : nat) : M unit :=
  fun st => (Return tt, {| calls := calls st;
                           next_pid := next_pid st;
                           running := without pid (running st) |}).

(** The process is terminated. *)
Definition kill (pid : nat) : M unit :=
  fun st => (Return tt, {| calls := calls st;
                           next_pid := next_pid st;
                           running := without pid (running st) |}).

(** Reading one captured stream in text mode.  No [errors=] is passed, so
    decoding is strict.  Where the caller itself decodes the bytes, a
    stream that does not decode raises the codec's [UnicodeDecodeError] to
    it; on Windows the stream is read in a thread of its own, the error
    ends that thread, and the stream comes back as [None]. *)
Definition decoded (windows : bool) (enc : Encoding) (bs : bytes) : M (option str) :=
  match decode enc bs with
  | inl t => ret (Some (translate_newlines t))
  | inr e => if windows then ret None else raise (Exception (str_of_decode_error e))
  end.

(** [subprocess.run] with captured, decoded output and no [check].  The
    program named first is looked up and started.  If it exits in time,
    its two streams are read, standard output first, and handed back with
    the exit code.  If the deadline passes first, the child is killed and
    collected and [TimeoutExpired] is raised.  An empty argument vector
    has no first element to start.  The arguments are ordinary text: one
    that holds a NUL character, which CPython turns down before it looks
    the program up, is not provided for. *)
Definition subprocess_run (os : OS) (req : RunRequest) : M CompletedProcess :=
  record req ;;
  match args req with
  | [] => raise (Exception (lit "list index out of range"))
  | program :: _ =>
    if located os program then
      match child os (args req) (timeout req) with
      | Refused detail => raise (Exception detail)
      | Exits code out err =>
        pid <- spawn ;;
        wait pid ;;
        o <- decoded (is_windows os) (encoding req) out ;;
        e <- decoded (is_windows os) (encoding req) err ;;
        ret {| returncode := code; stdout := o; stderr := e |}
      | StillRunning =>
        pid <- spawn ;;
        kill pid ;;
        raise TimeoutExpired
      end
    else raise FileNotFoundError
  end.

(** The machine after a call that was recorded but started no process. *)
Definition noted (req : RunRequest) (st : Procs) : Procs :=
  {| calls := calls st ++ [req];
     next_pid := next_pid st;
     running := running st |}.

(** The machine after a call whose child process has come and gone. *)
Definition served (req : RunRequest) (st : Procs) : Procs :=
  {| calls := calls st ++ [req];
     next_pid := S (next_pid st);
     running := without (next_pid st) (next_pid st :: running st) |}.

(** *** The pieces of Python the functions use *)

(** A parameter that has a default value. *)
Definition default {A} (d : A) (given : option A) : A :=
  match given with
  | Some a => a
  | None => d
  end.

Definition nl : str := [10%N].

(** Truth value of a [str]. *)
Definition nonempty (s : str) : bool :=
  match s with
  | [] => false
  | _ :: _ => true
  end.

(** [x.strip()] for a captured stream: [None] has no such method. *)
Definition strip_of (x : option str) : M str :=
  match x with
  | Some s => ret (strip s)
  | None => raise (Exception (lit "'NoneType' object has no attribute 'strip'"))
  end.

(** Truth value of a captured stream: [None] and the empty text are
    false. *)
Definition truthy (x : option str) : bool :=
  match x with
  | Some s => nonempty s
  | None => false
  end.

(** [self.append] called with the given positional arguments: the method
    takes exactly one. *)
Definition list_append (self : list str) (arguments : list str) : M (list str) :=
  match arguments with
  | [x] => ret (self ++ [x])
  | _ => raise (Exception (lit "list.append() takes exactly one argument ("
                           ++ str_of_int (Z.of_nat (List.length arguments))
                           ++ lit " given)"))
  end.

Definition list_extend (self : list str) (items : list str) : list str :=
  self ++ items.

(** *** [subprocess.Popen] *)

(** [Popen] starts a program and does not wait for it.  Besides the
    process table, the machine keeps the argument vectors handed to
    [Popen], oldest first. *)
Record Desk := {
  procs : Procs;
  launches : list (list str)
}.

(** What a [Popen] call yields: the new process, or the exception it
    raises, of which [FileNotFoundError] is told apart and any other is
    known by its text. *)
Inductive Launched :=
| Process (pid : nat)
| NotFound
| Failed (text : str).

Definition launch_noted (argv : list str) (d : Desk) : Desk :=
  {| procs := procs d; launches := launches d ++ [argv] |}.

(** The process table once a process has been created that nothing waits
    for: it is among the running ones unless it has gone by itself. *)
Definition let_go (gone : bool) (st : Procs) : Procs :=
  {| calls := calls st;
     next_pid := S (next_pid st);
     running := if gone then running st else next_pid st :: running st |}.

(** Whether the process started from an argument vector has exited
    before any time has passed. *)
Definition exits_at_once (os : OS) (args : list str) : bool :=
  match child os args 0 with
  | Exits _ _ _ => true
  | _ => false
  end.

(** The error, if any, with which the launch of a program that was found
    is turned down.  The machine's own refusal is read from [os], as
    [subprocess.run] reads it; [denied] gives the refusals that [os] does
    not hold and is asked first. *)
Definition refusal (os : OS) (denied : list str -> option str) (args : list str)
    : option str :=
  match denied args with
  | Some detail => Some detail
  | None =>
    match child os args 0 with
    | Refused detail => Some detail
    | _ => None
    end
  end.

(** [subprocess.Popen(args, stdout=PIPE, stderr=PIPE)]: the program named
    first is looked up; a launch that is turned down raises the error of
    the refusal; otherwise the process is created and nothing waits for
    it. *)
Definition Popen (os : OS) (denied : list str -> option str) (args : list str)
    (d : Desk) : Launched * Desk :=
  let d := launch_noted args d in
  match args with
  | [] => (Failed (lit "list index out of range"), d)
  | program :: _ =>
    if located os program then
      match refusal os denied args with
      | Some detail => (Failed detail, d)
      | None =>
        (Process (next_pid (procs d)),
         {| procs := let_go (exits_at_once os args) (procs d);
            launches := launches d |})
      end
    else (NotFound, d)
  end.

(** A state of the process table in which every running process has an
    id already given out. *)
Definition tidy (st : Procs) : Prop :=
  forall p : nat, In p (running st) -> (p < next_pid st)%nat.

End Host.

(** ** [windows_automator.py] *)

Module windows_automator.

Import Text Host.
Local Open Scope py_scope.
Local Open Scope Z_scope.

(** Lines 57-65: the argument vector for the chosen shell, or nothing when
    the shell type is neither of the two. *)
Definition full_command (command : list str) (shell_type : str) : option (list str) :=
  if eqb shell_type (lit "powershell") then
    Some ([lit "powershell"; lit "-NoProfile"; lit "-Command"] ++ command)
  else if eqb shell_type (lit "cmd") then
    Some ([lit "cmd"; lit "/c"] ++ command)
  else None.

Definition execute_command (os : OS) (command : list str)
    (shell_type : option str) (timeout : option Z) : M (bool * str) :=
  let shell_type := default (lit "cmd") shell_type in
  let timeout := default 30 timeout in
  try
    (match full_command command shell_type with
     | None => ret (false, lit "Tipo de shell desconhecido: " ++ shell_type)
     | Some full_command =>
       result <- subprocess_run os {| args := full_command;
                                      encoding := cp850;
                                      timeout := timeout |} ;;
       if returncode result =? 0 then
         output <- strip_of (stdout result) ;;
         ret (true, output)
       else
         errors <- strip_of (stderr result) ;;
         let error_message :=
           lit "Erro ao executar comando (código " ++ str_of_int (returncode result)
           ++ lit "):" ++ nl ++ errors in
         if truthy (stdout result) then
           output <- strip_of (stdout result) ;;
           ret (false, error_message ++ nl ++ lit "Saída (stdout):" ++ nl ++ output)
         else ret (false, error_message)
     end)
    (fun e =>
       match e with
       | FileNotFoundError =>
         ret (false, lit "Erro: '" ++ shell_type
                     ++ lit "' não encontrado. Verifique a instalação e o PATH.")
       | TimeoutExpired =>
         ret (false, lit "Erro: O comando excedeu o tempo limite de "
                     ++ str_of_int timeout ++ lit " segundos.")
       | Exception text =>
         ret (false, lit "Erro inesperado ao executar o comando: " ++ text)
       end).

Definition list_directory_windows (os : OS) (path : option str) : M (bool * str) :=
  let path := default (lit ".") path in
  let safe_path := path in
  execute_command os [lit "dir"; safe_path] (Some (lit "cmd")) None.

Definition list_processes_windows (os : OS) : M (bool * str) :=
  r <- execute_command os [lit "Get-Process"] (Some (lit "powershell")) None ;;
  let '(success, output) := r in
  if success then ret (true, output)
  else execute_command os [lit "tasklist"] (Some (lit "cmd")) None.

(** The [try] of this function stands at the left margin in the source;
    it is read as the body of the function, as its indentation below that
    line and its [return] statements show. *)
Definition start_program_windows (os : OS) (denied : list str -> option str)
    (program_path : str) (d : Desk) : (bool * str) * Desk :=
  match Popen os denied [lit "cmd"; lit "/c"; lit "start"; []; program_path] d with
  | (Process _, d') =>
    ((true, lit "Comando para iniciar '" ++ program_path ++ lit "' enviado."), d')
  | (NotFound, d') =>
    ((false, lit "Erro: 'cmd' não encontrado. Verifique a instalação e o PATH."), d')
  | (Failed text, d') =>
    ((false, lit "Erro inesperado ao tentar iniciar o programa: " ++ text), d')
  end.

(** The tokens lines 60 and 63 put in front of the command, for each of
    the two shells. *)
Definition powershell_tokens : list str :=
  [lit "powershell"; lit "-NoProfile"; lit "-Command"].

Definition cmd_tokens : list str := [lit "cmd"; lit "/c"].

End windows_automator.

(** ** [vm_manager.py] *)

Module vm_manager.

Import Text Host.
Local Open Scope py_scope.
Local Open Scope Z_scope.

(** The literal of the missing-tool message runs over two source lines:
    the line break and the indentation stand between its two halves. *)
Definition _execute_vm_command (os : OS) (command : list str) (tool_name : str)
    (timeout : option Z) : M (bool * str) :=
  let timeout := default 60 timeout in
  try
    (result <- subprocess_run os {| args := command;
                                    encoding := utf_8;
                                    timeout := timeout |} ;;
     if returncode result =? 0 then
       output <- strip_of (stdout result) ;;
       ret (true, output)
     else
       errors <- strip_of (stderr result) ;;
       let error_message :=
         lit "Erro ao executar " ++ tool_name ++ lit " (código "
         ++ str_of_int (returncode result) ++ lit "):" ++ nl ++ errors in
       if truthy (stdout result) then
         output <- strip_of (stdout result) ;;
         ret (false, error_message ++ nl ++ lit "Saída (stdout):" ++ nl ++ output)
       else ret (false, error_message))
    (fun e =>
       match e with
       | FileNotFoundError =>
         ret (false, lit "Erro: Ferramenta " ++ nl ++ lit "              '" ++ tool_name
                     ++ lit "' não encontrada. Verifique a instalação e o PATH.")
       | TimeoutExpired =>
         ret (false, lit "Erro: O comando " ++ tool_name
                     ++ lit " excedeu o tempo limite de " ++ str_of_int timeout
                     ++ lit " segundos.")
       | Exception text =>
         ret (false, lit "Erro inesperado ao executar " ++ tool_name ++ lit ": " ++ text)
       end).

(** *** VirtualBox *)

Definition list_vbox_vms (os : OS) : M (bool * str) :=
  let command := [lit "VBoxManage"; lit "list"; lit "vms"] in
  _execute_vm_command os command (lit "VBoxManage") None.

Definition start_vbox_vm (os : OS) (vm_name_or_uuid : str) (headless : option bool)
    : M (bool * str) :=
  let headless := default false headless in
  let command := [lit "VBoxManage"; lit "startvm"; vm_name_or_uuid] in
  let command :=
    if headless then list_extend command [lit "--type"; lit "headless"]
    else list_extend command [lit "--type"; lit "gui"] in
  _execute_vm_command os command (lit "VBoxManage") (Some 120).

Definition stop_vbox_vm (os : OS) (vm_name_or_uuid : str) (force : option bool)
    : M (bool * str) :=
  let force := default false force in
  let command := [lit "VBoxManage"; lit "controlvm"; vm_name_or_uuid] in
  command <- (if force then list_append command [lit "poweroff"]
              else list_append command [lit "acpipowerbutton"]) ;;
  _execute_vm_command os command (lit "VBoxManage") (Some 90).

(** *** VMware *)

Definition list_vmware_running_vms (os : OS) : M (bool * str) :=
  let command := [lit "vmrun"; lit "list"] in
  _execute_vm_command os command (lit "vmrun") None.

Definition start_vmware_vm (os : OS) (vmx_path : str) (nogui : option bool)
    : M (bool * str) :=
  let nogui := default false nogui in
  let command := [lit "vmrun"] in
  command <- (if nogui then list_append command [lit "-T"; lit "ws-nogui"]
              else list_append command [lit "-T"; lit "ws"]) ;;
  let command := list_extend command [lit "start"; vmx_path] in
  command <- (if nogui then list_append command [lit "nogui"]
              else list_append command [lit "gui"]) ;;
  _execute_vm_command os command (lit "vmrun") (Some 120).

Definition stop_vmware_vm (os : OS) (vmx_path : str) (force : option bool)
    : M (bool * str) :=
  let force := default false force in
  let command := [lit "vmrun"; lit "-T"; lit "ws"] in
  command <- list_append command [lit "stop"] ;;
  command <- list_append command [vmx_path] ;;
  command <- (if force then list_append command [lit "hard"]
              else list_append command [lit "soft"]) ;;
  _execute_vm_command os command (lit "vmrun") (Some 90).

Definition execute_command_in_vmware_guest (os : OS)
    (vmx_path guest_user guest_pass command_to_run : str) : M (bool * str) :=
  let command :=
    [lit "vmrun";
     lit "-T"; lit "ws";
     lit "-gu"; guest_user;
     lit "-gp"; guest_pass;
     lit "runProgramInGuest";
     vmx_path;
     lit "-activeWindow";
     command_to_run] in
  _execute_vm_command os command (lit "vmrun") (Some 120).

End vm_manager.

(** ** Machines to run the functions on *)

Module Fixtures.

Import Text Host.

(** Nothing has been called yet and no child process is running. *)
Definition idle : Procs := {| calls := []; next_pid := 0; running := [] |}.

(** A machine, not a Windows one, on which the programs picked by [found]
    exist and every started process behaves as [behaviour]. *)
Definition machine (found : str -> bool) (behaviour : Child) : OS :=
  {| located := found; child := fun _ _ => behaviour; is_windows := false |}.

(** The same programs and processes on a Windows system. *)
Definition on_windows (os : OS) : OS :=
  {| located := located os; child := child os; is_windows := true |}.

Definition every_program (_ : str) : bool := true.

Definition no_program (_ : str) : bool := false.

Definition only (name : string) (program : str) : bool := eqb program (lit name).

Definition ascii_bytes (s : string) : bytes := list_byte_of_string s.

Definition quote : bytes := [x22].

Definition crlf : bytes := [x0d; x0a].

(** [VBoxManage list vms] printing one machine. *)
Definition vbox_prints_myvm : OS :=
  machine every_program
    (Exits 0 (quote ++ ascii_bytes "MyVM" ++ quote ++ ascii_bytes " {uuid}" ++ [x0a]) []).

(** The same tool printing a name in the console code page rather than
    in UTF-8: the byte E1 is a-acute in Latin-1. *)
Definition vbox_prints_latin1 : OS :=
  machine every_program
    (Exits 0 (quote ++ ascii_bytes "M" ++ [xe1] ++ ascii_bytes "quina" ++ quote
              ++ ascii_bytes " {uuid}" ++ [x0a]) []).

(** [vmrun] failing on a missing configuration file. *)
Definition vmrun_file_not_found : OS :=
  machine every_program (Exits 1 [] (ascii_bytes "Error: file not found")).

(** A tool that fails and reports on its standard error in Latin-1. *)
Definition vmrun_fails_latin1 : OS :=
  machine every_program
    (Exits 3 [] (ascii_bytes "Erro: opera" ++ [xe7; xe3] ++ ascii_bytes "o falhou")).

(** A shell that exits at once and prints a line. *)
Definition shell_prints_line : OS :=
  machine every_program (Exits 0 (ascii_bytes "  Volume in drive C" ++ crlf) []).

(** A shell reporting a failure on both streams. *)
Definition shell_fails : OS :=
  machine every_program
    (Exits 2 (ascii_bytes "partial listing" ++ crlf)
             (ascii_bytes "Access is denied." ++ crlf)).

(** A machine that has [cmd] and nothing else: the shell starts, does not
    find the program it is asked to run, and says so with exit code 1. *)
Definition cmd_without_the_program : OS :=
  machine (only "cmd")
    (Exits 1 []
       (ascii_bytes "'comando_invalido' is not recognized as an internal or external command,"
        ++ crlf ++ ascii_bytes "operable program or batch file." ++ crlf)).

(** A tool that exits with code 0 after printing the single byte FF. *)
Definition prints_byte_ff : OS := machine every_program (Exits 0 [xff] []).

(** [vmrun list] that exits with code 0 after a warning in Latin-1 on its
    standard error. *)
Definition warns_in_latin1 : OS :=
  machine every_program
    (Exits 0 (ascii_bytes "Total running VMs: 0" ++ crlf)
       (ascii_bytes "Aten" ++ [xe7; xe3] ++ ascii_bytes "o" ++ crlf)).

(** A tool that exits with code 2 after printing the single byte FF and
    writing a plain message to its standard error. *)
Definition fails_after_byte_ff : OS :=
  machine every_program (Exits 2 [xff] (ascii_bytes "failed")).

(** A process that never finishes. *)
Definition hangs : OS := machine every_program StillRunning.

(** A machine with no program installed at all. *)
Definition bare : OS := machine no_program StillRunning.

End Fixtures.

(** ** [db_manager.py] *)

Module db_manager.

Import Text Host.

(** The outcome of a call of which, when it raises, only the text of the
    exception is looked at. *)
Inductive Attempt (A : Type) :=
| Done (value : A)
| Thrown (text : str).

Arguments Done {A} value.
Arguments Thrown {A} text.

(** The six columns [add_interaction_history] writes.  The two columns
    the database fills in by itself, [id] and [timestamp], are read by
    nothing modelled here and are left out. *)
Record Interaction := {
  user_input : str;
  agent_action : str;
  action_details : option str;
  tool_output : option str;
  agent_response : option str;
  success : bool
}.

(** The database file: without the table [interaction_history], or with
    it and its rows, oldest first. *)
Definition Db := option (list Interaction).

(** What can go wrong outside the code during one call: [os.makedirs]
    raising an [OSError], and the database engine raising a
    [sqlite3.Error] on connecting or on executing and committing a
    statement.  Each is the text of the error, when there is one. *)
Record Disk := {
  makedirs_error : option str;
  connect_error : option str;
  write_error : option str
}.

(** What [get_db_connection] comes to: a connection, a [sqlite3.Error]
    logged and raised again, or the [OSError] of [os.makedirs], which
    stands outside its [try]. *)
Inductive Connection :=
| Opened
| SqliteError (text : str)
| OsError (text : str).

Definition get_db_connection (disk : Disk) : Connection :=
  match makedirs_error disk with
  | Some text => OsError text
  | None =>
    match connect_error disk with
    | Some text => SqliteError text
    | None => Opened
    end
  end.

(** [CREATE TABLE IF NOT EXISTS]: a table that is there is left alone.
    A [sqlite3.Error] is logged and goes no further. *)
Definition initialize_database (disk : Disk) (db : Db) : Attempt unit * Db :=
  match get_db_connection disk with
  | OsError text => (Thrown text, db)
  | SqliteError _ => (Done tt, db)
  | Opened =>
    match write_error disk with
    | Some _ => (Done tt, db)
    | None =>
      (Done tt, match db with
                | Some rows => Some rows
                | None => Some []
                end)
    end
  end.

(** [INSERT INTO interaction_history]: without the table the statement
    fails with a [sqlite3.Error], which is logged like any other. *)
Definition add_interaction_history (disk : Disk) (entry : Interaction) (db : Db)
    : Attempt unit * Db :=
  match get_db_connection disk with
  | OsError text => (Thrown text, db)
  | SqliteError _ => (Done tt, db)
  | Opened =>
    match db with
    | None => (Done tt, db)
    | Some rows =>
      match write_error disk with
      | Some _ => (Done tt, db)
      | None => (Done tt, Some (rows ++ [entry]))
      end
    end
  end.

End db_manager.

(** ** [langchain_agent.py] *)

Module langchain_agent.

Import Text Host windows_automator vm_manager db_manager.
Local Open Scope py_scope.

(** The names of the tools, in the order of [setup_tools]. *)
Definition tool_names : list str :=
  [lit "list_directory"; lit "list_processes"; lit "start_program";
   lit "list_vbox_vms"; lit "start_vbox_vm"; lit "stop_vbox_vm"; lit "web_search"].

(** The [func] of the tools that call the executors; each keeps the
    second item of the pair it gets.  The function of [web_search] calls
    none of them. *)
Definition list_directory_func (os : OS) (path : option str) : M str :=
  r <- list_directory_windows os path ;; ret (snd r).

Definition list_processes_func (os : OS) (_ : str) : M str :=
  r <- list_processes_windows os ;; ret (snd r).

Definition start_program_func (os : OS) (denied : list str -> option str)
    (program : str) (d : Desk) : str * Desk :=
  let (r, d') := start_program_windows os denied program d in (snd r, d').

Definition list_vbox_vms_func (os : OS) (_ : str) : M str :=
  r <- list_vbox_vms os ;; ret (snd r).

Definition start_vbox_vm_func (os : OS) (vm_id : str) : M str :=
  r <- start_vbox_vm os vm_id None ;; ret (snd r).

Definition stop_vbox_vm_func (os : OS) (vm_id : str) : M str :=
  r <- stop_vbox_vm os vm_id None ;; ret (snd r).

Section Agent.

(** [str.lower] of the Python in use. *)
Variable lower : str -> str.

(** [PlaceholderLLM.invoke], on the text [str(input)]. *)
Definition PlaceholderLLM_invoke (prompt : str) : str :=
  if occurs (lit "liste os arquivos") (lower prompt) then
    lit "Action: list_directory" ++ nl ++ lit "Action Input: ."
  else if occurs (lit "liste processos") (lower prompt) then
    lit "Action: list_processes" ++ nl ++ lit "Action Input: "
  else if occurs (lit "abra o bloco de notas") (lower prompt) then
    lit "Action: start_program" ++ nl ++ lit "Action Input: notepad.exe"
  else if occurs (lit "liste as vms") (lower prompt) then
    lit "Action: list_vbox_vms" ++ nl ++ lit "Action Input: "
  else
    lit "Final Answer: Desculpe, como um LLM de placeholder, não entendi seu comando. Por favor, tente um dos comandos simulados (listar arquivos, listar processos, abrir bloco de notas, listar VMs).".

(** Whatever the agent executor acts on. *)
Variable World : Type.

(** [agent_executor_instance.invoke] on the user's input: the entry
    [output] of the dictionary it returns, when the dictionary has one, or
    the text of the exception it raises. *)
Variable agent_invoke : str -> World -> Attempt (option str) * World.

Definition process_user_command (disk : Disk) (user_input : str) (now : World * Db)
    : Attempt str * (World * Db) :=
  let (world, db) := now in
  let (answer, world) := agent_invoke user_input world in
  let '(agent_action, action_details, agent_response, success) :=
    match answer with
    | Done response_dict =>
      let agent_response :=
        default (lit "Não foi possível gerar uma resposta.") response_dict in
      if negb (occurs (lit "Desculpe") agent_response)
         && negb (occurs (lit "Erro") agent_response)
      then
        (if existsb (fun name => occurs name (lower agent_response)) tool_names
         then lit "inferred_tool_use" else lit "direct_response",
         None, agent_response, true)
      else (lit "direct_response", None, agent_response, false)
    | Thrown e =>
      (lit "error", Some e,
       lit "Ocorreu um erro interno ao processar seu comando: " ++ e, false)
    end in
  let tool_output := None in
  match add_interaction_history disk
          {| user_input := user_input;
             agent_action := agent_action;
             action_details := action_details;
             tool_output := tool_output;
             agent_response := Some agent_response;
             success := success |} db with
  | (Done _, db) => (Done agent_response, (world, db))
  | (Thrown text, db) => (Thrown text, (world, db))
  end.

End Agent.

End langchain_agent.

(** ** [cli_interface.py] *)

Module cli_interface.

Import Text Host db_manager.

(** What a call of [input] meets: a line typed, an interrupt from the
    keyboard, or the end of the input. *)
Inductive Key :=
| Line (text : str)
| CtrlC
| EndOfInput.

Section Cli.

(** [str.lower] of the Python in use. *)
Variable lower : str -> str.

Variable World : Type.

Variable process_user_command : str -> World -> Attempt str * World.

(** The two lines printed before the loop; the literal of the second runs
    over two source lines. *)
Definition greeting : list str :=
  [nl ++ lit "Bem-vindo ao Assistente de IA Local! (Interface de Texto)" ++ nl;
   lit "Digite seu comando ou " ++ nl ++ lit "          " ++ [34%N] ++ lit "sair"
   ++ [34%N] ++ lit " para terminar." ++ nl].

(** The [while True] loop, run for at most [fuel] rounds on the keys to
    come: the result is the world and everything written to the console
    when the loop ends, or nothing when it has not ended by then.  Once
    the keys are used up, every [input] meets the end of the input. *)
Fixpoint loop (fuel : nat) (keys : list Key) (world : World) (console : list str)
    : option (World * list str) :=
  match fuel with
  | O => None
  | S fuel =>
    let console := console ++ [nl ++ lit "Você: "] in
    match keys with
    | Line user_input :: keys =>
      if eqb (lower (strip user_input)) (lit "sair") then
        Some (world, console ++ [lit "Até logo!" ++ nl])
      else if negb (nonempty (strip user_input)) then
        loop fuel keys world console
      else
        match process_user_command user_input world with
        | (Done response, world) =>
          loop fuel keys world (console ++ [nl ++ lit "Assistente: " ++ response ++ nl])
        | (Thrown e, world) =>
          loop fuel keys world (console ++ [lit "Ocorreu um erro inesperado: " ++ e ++ nl])
        end
    | CtrlC :: _ => Some (world, console ++ [nl ++ lit "Até logo!" ++ nl])
    | EndOfInput :: keys =>
      loop fuel keys world
        (console ++ [lit "Ocorreu um erro inesperado: " ++ lit "EOF when reading a line"
                     ++ nl])
    | [] =>
      loop fuel [] world
        (console ++ [lit "Ocorreu um erro inesperado: " ++ lit "EOF when reading a line"
                     ++ nl])
    end
  end.

Definition start_cli (fuel : nat) (keys : list Key) (world : World)
    : option (World * list str) :=
  loop fuel keys world greeting.

(** A key that ends the loop. *)
Definition leaves (key : Key) : bool :=
  match key with
  | Line user_input => eqb (lower (strip user_input)) (lit "sair")
  | CtrlC => true
  | EndOfInput => false
  end.



End Cli.

End cli_interface.

(** ** More machines *)

Module MoreFixtures.

Import Text Host Fixtures.

(** A machine that turns every launch down. *)
Definition refuses : OS :=
  machine every_program (Refused (lit "[WinError 5] Access is denied")).

(** A machine with [cmd] but without PowerShell, on which [tasklist]
    prints one line. *)
Definition tasklist_only : OS :=
  machine (only "cmd") (Exits 0 (ascii_bytes "System Idle Process    0" ++ crlf) []).

(** An empty desk. *)
Definition clear : Desk := {| procs := idle; launches := [] |}.

Definition never_denied (_ : list str) : option str := None.

(** A case mapping to run examples with: it lowers the letters A to Z
    and leaves every other character alone. *)
Definition ascii_lower (s : str) : str :=
  map (fun c => if (65 <=? c)%N && (c <=? 90)%N then (c + 32)%N else c) s.

(** An agent executor that answers every input with the same text and
    counts its calls. *)
Definition parrot (text : str) (_ : str) (calls : nat)
    : db_manager.Attempt (option str) * nat :=
  (db_manager.Done (Some text), S calls).

(** A command processor that answers with the command itself and counts
    its calls. *)
Definition echo (command : str) (calls : nat) : db_manager.Attempt str * nat :=
  (db_manager.Done command, S calls).

(** A disk on which nothing goes wrong. *)
Definition sound : db_manager.Disk :=
  {| db_manager.makedirs_error := None;
     db_manager.connect_error := None;
     db_manager.write_error := None |}.

(** A disk whose database is locked. *)
Definition locked : db_manager.Disk :=
  {| db_manager.makedirs_error := None;
     db_manager.connect_error := None;
     db_manager.write_error := Some (lit "database is locked") |}.


End MoreFixtures.

(** ** Facts about the host model *)

Module HostFacts.

Import Text Host.
Local Open Scope py_scope.

Arguments lit : simpl never.
Arguments str_of_int : simpl never.
Arguments strip : simpl never.
Arguments translate_newlines : simpl never.
Arguments cp850_decode : simpl never.
Arguments utf8_decode : simpl never.
Arguments str_of_decode_error : simpl never.

Lemma eqb_eq (a b : str) : eqb a b = true <-> a = b.
Proof.
  revert b; induction a as [|x a IH]; intros [|y b]; simpl; split;
    try congruence; try reflexivity.
  - intros H. apply andb_true_iff in H as [Hx Hab].
    apply N.eqb_eq in Hx. apply IH in Hab. congruence.
  - intros H. injection H as -> ->. rewrite N.eqb_refl. simpl. now apply IH.
Qed.

Lemma eqb_refl (a : str) : eqb a a = true.
Proof. now apply eqb_eq. Qed.

Lemma eqb_neq (a b : str) : a <> b -> eqb a b = false.
Proof.
  intros H. destruct (eqb a b) eqn:E; [|reflexivity].
  apply eqb_eq in E. contradiction.
Qed.

Lemma without_absent (pid : nat) (l : list nat) : ~ In pid (without pid l).
Proof.
  unfold without. intros H. apply filter_In in H as [_ H].
  rewrite Nat.eqb_refl in H. discriminate.
Qed.

Lemma without_subset (pid p : nat) (l : list nat) : In p (without pid l) -> In p l.
Proof. unfold without. intros H. now apply filter_In in H. Qed.

Lemma served_no_new_process (req : RunRequest) (st : Procs) (p : nat) :
  In p (running (served req st)) -> In p (running st) /\ p <> next_pid st.
Proof.
  change (running (served req st))
    with (without (next_pid st) (next_pid st :: running st)).
  intros H.
  assert (Hp : p <> next_pid st).
  { intros ->. exact (without_absent _ _ H). }
  split; [|exact Hp].
  apply without_subset in H. destruct H as [E|H]; [|exact H].
  now symmetry in E.
Qed.

Section Run.

Variable os : OS.
Variables (program : str) (rest : list str) (enc : Encoding) (deadline : Z).

Let req := {| args := program :: rest; encoding := enc; timeout := deadline |}.

Lemma run_not_located (st : Procs) :
  located os program = false ->
  subprocess_run os req st = (Raise FileNotFoundError, noted req st).
Proof.
  intros H. unfold subprocess_run, bind, record, raise. simpl. now rewrite H.
Qed.

Lemma run_refused (st : Procs) (detail : str) :
  located os program = true ->
  child os (program :: rest) deadline = Refused detail ->
  subprocess_run os req st = (Raise (Exception detail), noted req st).
Proof.
  intros H C. unfold subprocess_run, bind, record, raise. simpl. now rewrite H, C.
Qed.

Lemma run_still_running (st : Procs) :
  located os program = true ->
  child os (program :: rest) deadline = StillRunning ->
  subprocess_run os req st = (Raise TimeoutExpired, served req st).
Proof.
  intros H C. unfold subprocess_run, bind, record, raise. simpl. now rewrite H, C.
Qed.

Lemma run_exits (st : Procs) (code : Z) (out err : bytes) (o e : str) :
  located os program = true ->
  child os (program :: rest) deadline = Exits code out err ->
  decode enc out = inl o ->
  decode enc err = inl e ->
  subprocess_run os req st
  = (Return {| returncode := code;
               stdout := Some (translate_newlines o);
               stderr := Some (translate_newlines e) |}, served req st).
Proof.
  intros H C Do De. unfold subprocess_run, bind, record, decoded, ret. simpl.
  rewrite H, C. simpl. now rewrite Do, De.
Qed.

Lemma run_undecodable_stdout (st : Procs) (code : Z) (out err : bytes) (x : DecodeError) :
  is_windows os = false ->
  located os program = true ->
  child os (program :: rest) deadline = Exits code out err ->
  decode enc out = inr x ->
  subprocess_run os req st
  = (Raise (Exception (str_of_decode_error x)), served req st).
Proof.
  intros W H C Do. unfold subprocess_run, bind, record, decoded, raise. simpl.
  rewrite H, C. simpl. now rewrite Do, W.
Qed.

Lemma run_undecodable_stderr (st : Procs) (code : Z) (out err : bytes)
    (o : str) (x : DecodeError) :
  is_windows os = false ->
  located os program = true ->
  child os (program :: rest) deadline = Exits code out err ->
  decode enc out = inl o ->
  decode enc err = inr x ->
  subprocess_run os req st
  = (Raise (Exception (str_of_decode_error x)), served req st).
Proof.
  intros W H C Do De. unfold subprocess_run, bind, record, decoded, raise, ret. simpl.
  rewrite H, C. simpl. now rewrite Do, De, W.
Qed.

(** What a stream read on Windows comes back as. *)
Definition read_in_thread (bs : bytes) : option str :=
  match decode enc bs with
  | inl t => Some (translate_newlines t)
  | inr _ => None
  end.

Lemma run_exits_windows (st : Procs) (code : Z) (out err : bytes) :
  is_windows os = true ->
  located os program = true ->
  child os (program :: rest) deadline = Exits code out err ->
  subprocess_run os req st
  = (Return {| returncode := code;
               stdout := read_in_thread out;
               stderr := read_in_thread err |}, served req st).
Proof.
  intros W H C. unfold subprocess_run, bind, record, decoded, raise, ret, read_in_thread.
  simpl. rewrite H, C, W. simpl.
  destruct (decode enc out); destruct (decode enc err); reflexivity.
Qed.

End Run.

End HostFacts.

(** ** Facts about the two executors *)

Module ExecutorFacts.

Import Text Host HostFacts windows_automator vm_manager.
Local Open Scope Z_scope.

Lemma full_command_head (command : list str) (shell_type : str) (argv : list str) :
  full_command command shell_type = Some argv ->
  (shell_type = lit "cmd" \/ shell_type = lit "powershell")
  /\ exists tail, argv = shell_type :: tail.
Proof.
  unfold full_command.
  destruct (eqb shell_type (lit "powershell")) eqn:P.
  - apply eqb_eq in P. subst shell_type. intros [= <-]. split; [now right|].
    now eexists.
  - destruct (eqb shell_type (lit "cmd")) eqn:C; [|discriminate].
    apply eqb_eq in C. subst shell_type. intros [= <-]. split; [now left|].
    now eexists.
Qed.

Lemma full_command_cmd (command : list str) :
  full_command command (lit "cmd") = Some (lit "cmd" :: lit "/c" :: command).
Proof. reflexivity. Qed.

Lemma full_command_powershell (command : list str) :
  full_command command (lit "powershell")
  = Some (lit "powershell" :: lit "-NoProfile" :: lit "-Command" :: command).
Proof. reflexivity. Qed.

Lemma full_command_unknown (command : list str) (shell_type : str) :
  shell_type <> lit "cmd" -> shell_type <> lit "powershell" ->
  full_command command shell_type = None.
Proof.
  intros C P. unfold full_command. now rewrite (eqb_neq P), (eqb_neq C).
Qed.

(** [subprocess.run] always records its call, whatever happens next. *)
Lemma run_calls (os : OS) (req : RunRequest) (st : Procs) :
  calls (snd (subprocess_run os req st)) = calls st ++ [req].
Proof.
  unfold subprocess_run, bind, record, raise, ret, decoded, spawn, wait, kill.
  destruct (args req) as [|program rest]; [reflexivity|].
  destruct (located os program); [|reflexivity].
  destruct (child os (program :: rest) (timeout req)) as [code out err| |detail];
    try reflexivity.
  simpl. destruct (decode (encoding req) out), (decode (encoding req) err),
    (is_windows os); reflexivity.
Qed.

Ltac through result :=
  unfold strip_of, truthy, bind, ret, raise;
  destruct (returncode result =? 0); destruct (stdout result) as [o|];
  destruct (stderr result) as [e|]; simpl;
  try destruct (nonempty o); simpl.

(** What follows [subprocess.run] inside the executors only builds the
    result: the machine is left as [subprocess.run] left it. *)
Lemma execute_command_state (os : OS) (command : list str) (shell_type : option str)
    (seconds : option Z) (st : Procs) :
  snd (execute_command os command shell_type seconds st)
  = match full_command command (default (lit "cmd") shell_type) with
    | Some argv =>
      snd (subprocess_run os {| args := argv; encoding := cp850;
                                timeout := default 30 seconds |} st)
    | None => st
    end.
Proof.
  unfold execute_command, try, bind.
  destruct (full_command command (default (lit "cmd") shell_type)) as [argv|];
    [|reflexivity].
  destruct (subprocess_run _ _ st) as [[result|e] st']; simpl.
  - through result; reflexivity.
  - destruct e; reflexivity.
Qed.

Lemma vm_command_state (os : OS) (command : list str) (tool_name : str)
    (seconds : option Z) (st : Procs) :
  snd (_execute_vm_command os command tool_name seconds st)
  = snd (subprocess_run os {| args := command; encoding := utf_8;
                              timeout := default 60 seconds |} st).
Proof.
  unfold _execute_vm_command, try, bind.
  destruct (subprocess_run _ _ st) as [[result|e] st']; simpl.
  - through result; reflexivity.
  - destruct e; reflexivity.
Qed.

Lemma execute_command_calls (os : OS) (command : list str) (shell_type : option str)
    (seconds : option Z) (st : Procs) :
  calls (snd (execute_command os command shell_type seconds st))
  = calls st
    ++ match full_command command (default (lit "cmd") shell_type) with
       | Some argv => [{| args := argv; encoding := cp850;
                          timeout := default 30 seconds |}]
       | None => []
       end.
Proof.
  rewrite execute_command_state.
  destruct (full_command _ _); [apply run_calls|].
  now rewrite app_nil_r.
Qed.

Lemma vm_command_calls (os : OS) (command : list str) (tool_name : str)
    (seconds : option Z) (st : Procs) :
  calls (snd (_execute_vm_command os command tool_name seconds st))
  = calls st ++ [{| args := command; encoding := utf_8;
                    timeout := default 60 seconds |}].
Proof. rewrite vm_command_state. apply run_calls. Qed.

(** The executors turn every exception into a returned pair. *)
Lemma execute_command_returns (os : OS) (command : list str) (shell_type : option str)
    (seconds : option Z) (st : Procs) :
  exists r, fst (execute_command os command shell_type seconds st) = Return r.
Proof.
  unfold execute_command, try, bind.
  destruct (full_command _ _) as [argv|]; [|now eexists].
  destruct (subprocess_run _ _ st) as [[result|e] st']; simpl.
  - through result; now eexists.
  - destruct e; now eexists.
Qed.

Lemma vm_command_returns (os : OS) (command : list str) (tool_name : str)
    (seconds : option Z) (st : Procs) :
  exists r, fst (_execute_vm_command os command tool_name seconds st) = Return r.
Proof.
  unfold _execute_vm_command, try, bind.
  destruct (subprocess_run _ _ st) as [[result|e] st']; simpl.
  - through result; now eexists.
  - destruct e; now eexists.
Qed.

Lemma contains_middle (a b c : str) : contains (a ++ b ++ c) b.
Proof. now exists a, c. Qed.

Lemma contains_head (c : N) (s t : str) : contains s (c :: t) -> In c s.
Proof.
  intros (pre & post & ->). apply in_or_app. right. now left.
Qed.

End ExecutorFacts.

(** ** The specification's claims, checked on the code

    Both executors answer with a pair [(succeeded, text)].  The kinds of
    failure the specification tells apart are told apart by the text: each
    [except] clause and the exit-code branch has a message of its own.
    The statements below give the pair itself and, where it matters, what
    the call has done to the machine. *)

Import Text Host Fixtures HostFacts ExecutorFacts windows_automator vm_manager.
Local Open Scope Z_scope.

(** C1. When the child process exits before the deadline with exit code 0
    and its captured streams decode under the executor's encoding, the
    executor returns [True] together with the decoded standard output,
    leading and trailing whitespace removed.  Under code page 850 every
    byte sequence decodes, so [execute_command] needs no such condition;
    [_execute_vm_command] needs both streams to be valid UTF-8. *)
Theorem C1_exit_zero_returns_trimmed_stdout :
  (forall (os : OS) (st : Procs) (command argv : list str) (shell_type : str)
          (seconds : option Z) (out err : bytes),
      full_command command shell_type = Some argv ->
      located os shell_type = true ->
      child os argv (default 30 seconds) = Exits 0 out err ->
      fst (execute_command os command (Some shell_type) seconds st)
      = Return (true, strip (translate_newlines (cp850_decode out))))
  /\ (forall (os : OS) (st : Procs) (program : str) (rest : list str) (tool_name : str)
             (seconds : option Z) (out err : bytes) (o e : str),
         located os program = true ->
         child os (program :: rest) (default 60 seconds) = Exits 0 out err ->
         decode utf_8 out = inl o ->
         decode utf_8 err = inl e ->
         fst (_execute_vm_command os (program :: rest) tool_name seconds st)
         = Return (true, strip (translate_newlines o))).
Proof.
  split.
  - intros os st command argv shell_type seconds out err F L C.
    destruct (full_command_head _ _ F) as [_ [tail ->]].
    unfold execute_command, try, bind. cbn [default]. rewrite F.
    now rewrite (run_exits os shell_type tail cp850 (default 30 seconds) st
                   (o := cp850_decode out) (e := cp850_decode err) L C eq_refl eq_refl).
  - intros os st program rest tool_name seconds out err o e L C Do De.
    unfold _execute_vm_command, try, bind.
    now rewrite (run_exits os program rest utf_8 (default 60 seconds) st L C Do De).
Qed.


(** C1 at work: a directory listing through [cmd], and the listing of
    one virtual machine. *)
Lemma C1_exit_zero_returns_trimmed_stdout_witness :
  fst (execute_command shell_prints_line [lit "dir"] (Some (lit "cmd")) None idle)
  = Return (true, lit "Volume in drive C")
  /\ fst (_execute_vm_command vbox_prints_myvm [lit "VBoxManage"; lit "list"; lit "vms"]
            (lit "VBoxManage") None idle)
     = Return (true, [34%N] ++ lit "MyVM" ++ [34%N] ++ lit " {uuid}").
Proof.
  split.
  - rewrite (proj1 C1_exit_zero_returns_trimmed_stdout shell_prints_line idle
               [lit "dir"] [lit "cmd"; lit "/c"; lit "dir"] (lit "cmd") None
               (ascii_bytes "  Volume in drive C" ++ crlf) []);
      reflexivity.
  - rewrite (proj2 C1_exit_zero_returns_trimmed_stdout vbox_prints_myvm idle
               (lit "VBoxManage") [lit "list"; lit "vms"] (lit "VBoxManage") None
               (quote ++ ascii_bytes "MyVM" ++ quote ++ ascii_bytes " {uuid}" ++ [x0a]) []
               ([34%N] ++ lit "MyVM" ++ [34%N] ++ lit " {uuid}" ++ [10%N]) []);
      reflexivity.
Defined.


(** C1, as the specification words it, fails for [_execute_vm_command]:
    [VBoxManage list vms] exits with code 0 after printing a machine name
    in Latin-1; the output is not valid UTF-8, [subprocess.run] raises, and
    the executor returns [False] with its message for unexpected errors. *)
Lemma C1_exit_zero_counterexample :
  located vbox_prints_latin1 (lit "VBoxManage") = true
  /\ (exists out : bytes,
         child vbox_prints_latin1 [lit "VBoxManage"; lit "list"; lit "vms"] 60
         = Exits 0 out [])
  /\ fst (_execute_vm_command vbox_prints_latin1 [lit "VBoxManage"; lit "list"; lit "vms"]
            (lit "VBoxManage") None idle)
     = Return (false,
               lit "Erro inesperado ao executar VBoxManage: 'utf-8' codec can't decode byte 0xe1 in position 2: invalid continuation byte").
Proof.
  split; [reflexivity|]. split; [eexists; reflexivity|]. vm_compute. reflexivity.
Qed.


(** C2. When the child process exits before the deadline with a nonzero
    exit code and its captured streams decode under the executor's
    encoding, the executor returns [False] together with a report made of a
    heading with the exit code in decimal, then the decoded standard error
    with surrounding whitespace removed, and then, exactly when the decoded
    standard output is not empty, a second heading and the standard output
    with surrounding whitespace removed. *)
Theorem C2_nonzero_exit_report :
  (forall (os : OS) (st : Procs) (command argv : list str) (shell_type : str)
          (seconds : option Z) (code : Z) (out err : bytes),
      full_command command shell_type = Some argv ->
      located os shell_type = true ->
      child os argv (default 30 seconds) = Exits code out err ->
      code <> 0 ->
      let so := translate_newlines (cp850_decode out) in
      let se := translate_newlines (cp850_decode err) in
      exists output : str,
        fst (execute_command os command (Some shell_type) seconds st)
        = Return (false, output)
        /\ output
           = (lit "Erro ao executar comando (código " ++ str_of_int code ++ lit "):" ++ nl)
             ++ strip se
             ++ (if nonempty so then nl ++ lit "Saída (stdout):" ++ nl ++ strip so else [])
        /\ contains output (str_of_int code)
        /\ contains output (strip se)
        /\ (so <> [] -> contains output (strip so)))
  /\ (forall (os : OS) (st : Procs) (program : str) (rest : list str) (tool_name : str)
             (seconds : option Z) (code : Z) (out err : bytes) (o e : str),
         located os program = true ->
         child os (program :: rest) (default 60 seconds) = Exits code out err ->
         code <> 0 ->
         decode utf_8 out = inl o ->
         decode utf_8 err = inl e ->
         let so := translate_newlines o in
         let se := translate_newlines e in
         exists output : str,
           fst (_execute_vm_command os (program :: rest) tool_name seconds st)
           = Return (false, output)
           /\ output
              = (lit "Erro ao executar " ++ tool_name ++ lit " (código "
                 ++ str_of_int code ++ lit "):" ++ nl)
                ++ strip se
                ++ (if nonempty so then nl ++ lit "Saída (stdout):" ++ nl ++ strip so else [])
           /\ contains output (str_of_int code)
           /\ contains output (strip se)
           /\ (so <> [] -> contains output (strip so))).
Proof.
  split.
  - intros os st command argv shell_type seconds code out err F L C N so se.
    destruct (full_command_head _ _ F) as [_ [tail ->]].
    eexists. split; [|split; [reflexivity|]].
    + unfold execute_command, try, bind. cbn [default]. rewrite F.
      rewrite (run_exits os shell_type tail cp850 (default 30 seconds) st
                 (o := cp850_decode out) (e := cp850_decode err) L C eq_refl eq_refl).
      cbn [returncode stdout stderr fst]. fold so se.
      apply Z.eqb_neq in N. rewrite N.
      unfold strip_of, truthy, bind, ret. destruct (nonempty so); cbn [fst];
        repeat rewrite <- app_assoc; try rewrite app_nil_r; reflexivity.
    + split; [|split].
      * exists (lit "Erro ao executar comando (código "). eexists.
        repeat rewrite <- app_assoc. reflexivity.
      * apply contains_middle.
      * intros Hso. destruct so as [|c so']; [contradiction|]. cbn [nonempty].
        eexists. exists []. rewrite app_nil_r. repeat rewrite app_assoc. reflexivity.
  - intros os st program rest tool_name seconds code out err o e L C N Do De so se.
    eexists. split; [|split; [reflexivity|]].
    + unfold _execute_vm_command, try, bind.
      rewrite (run_exits os program rest utf_8 (default 60 seconds) st L C Do De).
      cbn [returncode stdout stderr fst]. fold so se.
      apply Z.eqb_neq in N. rewrite N.
      unfold strip_of, truthy, bind, ret. destruct (nonempty so); cbn [fst];
        repeat rewrite <- app_assoc; try rewrite app_nil_r; reflexivity.
    + split; [|split].
      * exists (lit "Erro ao executar " ++ tool_name ++ lit " (código "). eexists.
        repeat rewrite <- app_assoc. reflexivity.
      * apply contains_middle.
      * intros Hso. destruct so as [|c so']; [contradiction|]. cbn [nonempty].
        eexists. exists []. rewrite app_nil_r. repeat rewrite app_assoc. reflexivity.
Qed.


(** C2 at work: a shell that fails on both streams, and [vmrun] failing
    on a missing configuration file. *)
Lemma C2_nonzero_exit_report_witness :
  (exists output : str,
      fst (execute_command shell_fails [lit "dir"] (Some (lit "cmd")) None idle)
      = Return (false, output)
      /\ contains output (lit "2")
      /\ contains output (lit "Access is denied.")
      /\ contains output (lit "partial listing"))
  /\ (exists output : str,
         fst (_execute_vm_command vmrun_file_not_found
                [lit "vmrun"; lit "-T"; lit "ws"; lit "stop"; lit "missing.vmx"; lit "soft"]
                (lit "vmrun") (Some 90) idle)
         = Return (false, output)
         /\ contains output (lit "1")
         /\ contains output (lit "Error: file not found")).
Proof.
  split.
  - destruct (proj1 C2_nonzero_exit_report shell_fails idle
                [lit "dir"] [lit "cmd"; lit "/c"; lit "dir"] (lit "cmd") None 2
                (ascii_bytes "partial listing" ++ crlf)
                (ascii_bytes "Access is denied." ++ crlf)
                eq_refl eq_refl eq_refl)
      as (output & R & _ & Hcode & Herr & Hout).
    + discriminate.
    + exists output. repeat split; [exact R|exact Hcode|exact Herr|].
      apply Hout. discriminate.
  - destruct (proj2 C2_nonzero_exit_report vmrun_file_not_found idle
                (lit "vmrun") [lit "-T"; lit "ws"; lit "stop"; lit "missing.vmx"; lit "soft"]
                (lit "vmrun") (Some 90) 1 [] (ascii_bytes "Error: file not found")
                [] (lit "Error: file not found")
                eq_refl eq_refl)
      as (output & R & _ & Hcode & Herr & _).
    + discriminate.
    + reflexivity.
    + reflexivity.
    + exists output. repeat split; [exact R|exact Hcode|exact Herr].
Defined.


(** C2, as the specification words it, fails for [_execute_vm_command]:
    the tool exits with code 3 after writing a Latin-1 message to its
    standard error; the stream is not valid UTF-8, [subprocess.run] raises,
    and what comes back is the message for unexpected errors, which holds
    neither the exit code nor the tool's own message. *)
Lemma C2_nonzero_exit_counterexample :
  located vmrun_fails_latin1 (lit "vmrun") = true
  /\ (exists err : bytes,
         child vmrun_fails_latin1 [lit "vmrun"; lit "list"] 60 = Exits 3 [] err)
  /\ fst (_execute_vm_command vmrun_fails_latin1 [lit "vmrun"; lit "list"]
            (lit "vmrun") None idle)
     = Return (false,
               lit "Erro inesperado ao executar vmrun: 'utf-8' codec can't decode byte 0xe7 in position 11: invalid continuation byte")
  /\ ~ contains
         (lit "Erro inesperado ao executar vmrun: 'utf-8' codec can't decode byte 0xe7 in position 11: invalid continuation byte")
         (str_of_int 3).
Proof.
  split; [reflexivity|]. split; [eexists; reflexivity|].
  split; [vm_compute; reflexivity|].
  intros H. change (str_of_int 3) with [51%N] in H. apply contains_head in H.
  assert (E : existsb (N.eqb 51)
                (lit "Erro inesperado ao executar vmrun: 'utf-8' codec can't decode byte 0xe7 in position 11: invalid continuation byte")
              = true).
  { apply existsb_exists. exists 51%N. split; [exact H|reflexivity]. }
  vm_compute in E. discriminate.
Qed.


(** C3. When the child process has not exited as the deadline elapses,
    the executor returns, without raising, [False] and a message naming the
    deadline in seconds; the call has created exactly one process, that
    process is no longer running, and no process is running that was not
    running before the call. *)
Theorem C3_timeout_kills_the_child_and_reports :
  (forall (os : OS) (st : Procs) (command argv : list str) (shell_type : str)
          (seconds : option Z),
      full_command command shell_type = Some argv ->
      located os shell_type = true ->
      child os argv (default 30 seconds) = StillRunning ->
      let r := execute_command os command (Some shell_type) seconds st in
      fst r = Return (false, lit "Erro: O comando excedeu o tempo limite de "
                             ++ str_of_int (default 30 seconds) ++ lit " segundos.")
      /\ next_pid (snd r) = S (next_pid st)
      /\ ~ In (next_pid st) (running (snd r))
      /\ (forall p : nat, In p (running (snd r)) -> In p (running st)))
  /\ (forall (os : OS) (st : Procs) (program : str) (rest : list str) (tool_name : str)
             (seconds : option Z),
         located os program = true ->
         child os (program :: rest) (default 60 seconds) = StillRunning ->
         let r := _execute_vm_command os (program :: rest) tool_name seconds st in
         fst r = Return (false, lit "Erro: O comando " ++ tool_name
                                ++ lit " excedeu o tempo limite de "
                                ++ str_of_int (default 60 seconds) ++ lit " segundos.")
         /\ next_pid (snd r) = S (next_pid st)
         /\ ~ In (next_pid st) (running (snd r))
         /\ (forall p : nat, In p (running (snd r)) -> In p (running st))).
Proof.
  split.
  - intros os st command argv shell_type seconds F L C r.
    destruct (full_command_head _ _ F) as [_ [tail ->]].
    assert (E : r = (Return (false, lit "Erro: O comando excedeu o tempo limite de "
                                    ++ str_of_int (default 30 seconds)
                                    ++ lit " segundos."),
                     served {| args := shell_type :: tail; encoding := cp850;
                               timeout := default 30 seconds |} st)).
    { subst r. unfold execute_command, try, bind. cbn [default]. rewrite F.
      now rewrite (run_still_running os shell_type tail cp850 (default 30 seconds) st L C). }
    rewrite E. cbn [fst snd]. repeat split.
    + apply without_absent.
    + intros p Hp. now apply served_no_new_process in Hp.
  - intros os st program rest tool_name seconds L C r.
    assert (E : r = (Return (false, lit "Erro: O comando " ++ tool_name
                                    ++ lit " excedeu o tempo limite de "
                                    ++ str_of_int (default 60 seconds)
                                    ++ lit " segundos."),
                     served {| args := program :: rest; encoding := utf_8;
                               timeout := default 60 seconds |} st)).
    { subst r. unfold _execute_vm_command, try, bind.
      now rewrite (run_still_running os program rest utf_8 (default 60 seconds) st L C). }
    rewrite E. cbn [fst snd]. repeat split.
    + apply without_absent.
    + intros p Hp. now apply served_no_new_process in Hp.
Qed.


(** C3 at work: on a machine where every process hangs, both executors
    report the deadline and leave nothing running. *)
Lemma C3_timeout_kills_the_child_and_reports_witness :
  (fst (execute_command hangs [lit "Get-Process"] (Some (lit "powershell")) None idle)
   = Return (false, lit "Erro: O comando excedeu o tempo limite de 30 segundos.")
   /\ running (snd (execute_command hangs [lit "Get-Process"] (Some (lit "powershell"))
                      None idle)) = [])
  /\ (fst (_execute_vm_command hangs [lit "VBoxManage"; lit "startvm"; lit "X"]
             (lit "VBoxManage") (Some 120) idle)
      = Return (false, lit "Erro: O comando VBoxManage excedeu o tempo limite de 120 segundos.")
      /\ running (snd (_execute_vm_command hangs [lit "VBoxManage"; lit "startvm"; lit "X"]
                         (lit "VBoxManage") (Some 120) idle)) = []).
Proof.
  split.
  - destruct (proj1 C3_timeout_kills_the_child_and_reports hangs idle
                [lit "Get-Process"]
                [lit "powershell"; lit "-NoProfile"; lit "-Command"; lit "Get-Process"]
                (lit "powershell") None eq_refl eq_refl eq_refl)
      as (R & _ & _ & Hrun).
    split; [exact R|].
    destruct (running (snd (execute_command hangs [lit "Get-Process"]
                              (Some (lit "powershell")) None idle))) as [|p l];
      [reflexivity|].
    destruct (Hrun p (or_introl eq_refl)).
  - destruct (proj2 C3_timeout_kills_the_child_and_reports hangs idle
                (lit "VBoxManage") [lit "startvm"; lit "X"] (lit "VBoxManage") (Some 120)
                eq_refl eq_refl)
      as (R & _ & _ & Hrun).
    split; [exact R|].
    destruct (running (snd (_execute_vm_command hangs
                              [lit "VBoxManage"; lit "startvm"; lit "X"]
                              (lit "VBoxManage") (Some 120) idle))) as [|p l];
      [reflexivity|].
    destruct (Hrun p (or_introl eq_refl)).
Defined.


(** C4. When the program that the executor itself starts cannot be
    located (the shell [cmd] or [powershell] for [execute_command], the
    first argument for [_execute_vm_command]), the executor returns [False]
    with its message for a missing tool, for either shell, and no process
    has been created.  When the shell can be located, [execute_command]
    never returns that message, whatever the command names. *)
Theorem C4_missing_program_is_reported :
  (forall (os : OS) (st : Procs) (command argv : list str) (shell_type : str)
          (seconds : option Z),
      full_command command shell_type = Some argv ->
      located os shell_type = false ->
      let r := execute_command os command (Some shell_type) seconds st in
      fst r = Return (false, lit "Erro: '" ++ shell_type
                             ++ lit "' não encontrado. Verifique a instalação e o PATH.")
      /\ next_pid (snd r) = next_pid st
      /\ running (snd r) = running st)
  /\ (forall (os : OS) (st : Procs) (program : str) (rest : list str) (tool_name : str)
             (seconds : option Z),
         located os program = false ->
         let r := _execute_vm_command os (program :: rest) tool_name seconds st in
         fst r = Return (false, lit "Erro: Ferramenta " ++ nl ++ lit "              '"
                                ++ tool_name
                                ++ lit "' não encontrada. Verifique a instalação e o PATH.")
         /\ next_pid (snd r) = next_pid st
         /\ running (snd r) = running st)
  /\ (forall (os : OS) (st : Procs) (command argv : list str) (shell_type : str)
             (seconds : option Z),
         full_command command shell_type = Some argv ->
         located os shell_type = true ->
         fst (execute_command os command (Some shell_type) seconds st)
         <> Return (false, lit "Erro: '" ++ shell_type
                           ++ lit "' não encontrado. Verifique a instalação e o PATH.")).
Proof.
  split; [|split].
  - intros os st command argv shell_type seconds F L r.
    destruct (full_command_head _ _ F) as [_ [tail ->]].
    subst r. unfold execute_command, try, bind. cbn [default]. rewrite F.
    rewrite (run_not_located os shell_type tail cp850 (default 30 seconds) st L).
    repeat split.
  - intros os st program rest tool_name seconds L r.
    subst r. unfold _execute_vm_command, try, bind.
    rewrite (run_not_located os program rest utf_8 (default 60 seconds) st L).
    repeat split.
  - intros os st command argv shell_type seconds F L.
    destruct (full_command_head _ _ F) as [_ [tail ->]].
    pose (opening := fun r : Outcome (bool * str) =>
                       match r with
                       | Return (_, message) => firstn 7 message
                       | Raise _ => []
                       end).
    unfold execute_command, try, bind. cbn [default]. rewrite F.
    destruct (child os (shell_type :: tail) (default 30 seconds))
      as [code out err| |detail] eqn:C.
    + rewrite (run_exits os shell_type tail cp850 (default 30 seconds) st
                 (o := cp850_decode out) (e := cp850_decode err) L C eq_refl eq_refl).
      cbn [returncode stdout stderr fst].
      unfold strip_of, truthy, bind, ret.
      destruct (code =? 0); [cbn [fst]; congruence|].
      destruct (nonempty _); cbn [fst]; intros H;
        apply (f_equal opening) in H; vm_compute in H; discriminate.
    + rewrite (run_still_running os shell_type tail cp850 (default 30 seconds) st L C).
      unfold ret; cbn [fst]; intros H.
      apply (f_equal opening) in H; vm_compute in H; discriminate.
    + rewrite (run_refused os shell_type tail cp850 (default 30 seconds) st L C).
      unfold ret; cbn [fst]; intros H.
      apply (f_equal opening) in H; vm_compute in H; discriminate.
Qed.


(** C4 at work: a machine with no program at all, and a machine that has
    [cmd] only. *)
Lemma C4_missing_program_is_reported_witness :
  fst (execute_command bare [lit "dir"] (Some (lit "cmd")) None idle)
  = Return (false, lit "Erro: 'cmd' não encontrado. Verifique a instalação e o PATH.")
  /\ fst (execute_command bare [lit "Get-Date"] (Some (lit "powershell")) None idle)
     = Return (false, lit "Erro: 'powershell' não encontrado. Verifique a instalação e o PATH.")
  /\ fst (_execute_vm_command bare [lit "vmrun"; lit "list"] (lit "vmrun") None idle)
     = Return (false, lit "Erro: Ferramenta " ++ nl ++ lit "              '" ++ lit "vmrun"
                      ++ lit "' não encontrada. Verifique a instalação e o PATH.")
  /\ fst (execute_command cmd_without_the_program [lit "comando_invalido"]
            (Some (lit "cmd")) None idle)
     <> Return (false, lit "Erro: '" ++ lit "cmd"
                       ++ lit "' não encontrado. Verifique a instalação e o PATH.").
Proof.
  split; [|split; [|split]].
  - exact (proj1 (proj1 C4_missing_program_is_reported bare idle
                    [lit "dir"] [lit "cmd"; lit "/c"; lit "dir"] (lit "cmd") None
                    eq_refl eq_refl)).
  - exact (proj1 (proj1 C4_missing_program_is_reported bare idle
                    [lit "Get-Date"]
                    [lit "powershell"; lit "-NoProfile"; lit "-Command"; lit "Get-Date"]
                    (lit "powershell") None eq_refl eq_refl)).
  - exact (proj1 (proj1 (proj2 C4_missing_program_is_reported) bare idle
                    (lit "vmrun") [lit "list"] (lit "vmrun") None eq_refl)).
  - exact (proj2 (proj2 C4_missing_program_is_reported) cmd_without_the_program idle
             [lit "comando_invalido"] [lit "cmd"; lit "/c"; lit "comando_invalido"]
             (lit "cmd") None eq_refl eq_refl).
Defined.


(** C4, as the specification words it, fails for [execute_command]: on a
    machine that has [cmd] but no program called [comando_invalido], the
    command naming that program is handed to [cmd], which starts, fails to
    find it and exits with code 1; the result is the report of a nonzero
    exit code, not the message for a missing tool. *)
Lemma C4_missing_program_counterexample :
  located cmd_without_the_program (lit "comando_invalido") = false
  /\ fst (execute_command cmd_without_the_program [lit "comando_invalido"]
            (Some (lit "cmd")) None idle)
     = Return (false,
               lit "Erro ao executar comando (código 1):" ++ nl
               ++ lit "'comando_invalido' is not recognized as an internal or external command,"
               ++ nl ++ lit "operable program or batch file.")
  /\ fst (execute_command cmd_without_the_program [lit "comando_invalido"]
            (Some (lit "cmd")) None idle)
     <> Return (false, lit "Erro: 'cmd' não encontrado. Verifique a instalação e o PATH.").
Proof.
  split; [reflexivity|]. split; [vm_compute; reflexivity|].
  vm_compute. discriminate.
Qed.


(** C5. For every identifier and every flag the VirtualBox operations call
    [subprocess.run] exactly once, with the argument vector and the deadline
    of the mapping table: [VBoxManage list vms] with 60 seconds;
    [VBoxManage startvm id --type headless] when [headless] is true and
    [... --type gui] otherwise (also when the flag is omitted), with 120
    seconds; [VBoxManage controlvm id poweroff] when [force] is true and
    [... acpipowerbutton] otherwise, with 90 seconds.  The identifier is the
    third argument, unchanged. *)
Theorem C5_virtualbox_argv_and_timeouts :
  forall (os : OS) (st : Procs) (id : str) (flag : bool),
    let ran (r : Outcome (bool * str) * Procs) (argv : list str) (seconds : Z) :=
      calls (snd r)
      = calls st ++ [{| args := argv; encoding := utf_8; timeout := seconds |}] in
    ran (list_vbox_vms os st) [lit "VBoxManage"; lit "list"; lit "vms"] 60
    /\ list_vbox_vms os st
       = _execute_vm_command os [lit "VBoxManage"; lit "list"; lit "vms"]
           (lit "VBoxManage") (Some 60) st
    /\ ran (start_vbox_vm os id (Some flag) st)
         [lit "VBoxManage"; lit "startvm"; id; lit "--type";
          if flag then lit "headless" else lit "gui"] 120
    /\ start_vbox_vm os id (Some flag) st
       = _execute_vm_command os
           [lit "VBoxManage"; lit "startvm"; id; lit "--type";
            if flag then lit "headless" else lit "gui"]
           (lit "VBoxManage") (Some 120) st
    /\ start_vbox_vm os id None st = start_vbox_vm os id (Some false) st
    /\ ran (stop_vbox_vm os id (Some flag) st)
         [lit "VBoxManage"; lit "controlvm"; id;
          if flag then lit "poweroff" else lit "acpipowerbutton"] 90
    /\ stop_vbox_vm os id (Some flag) st
       = _execute_vm_command os
           [lit "VBoxManage"; lit "controlvm"; id;
            if flag then lit "poweroff" else lit "acpipowerbutton"]
           (lit "VBoxManage") (Some 90) st
    /\ stop_vbox_vm os id None st = stop_vbox_vm os id (Some false) st.
Proof.
  intros os st id flag ran. subst ran. cbv beta.
  assert (Hstart : start_vbox_vm os id (Some flag) st
                   = _execute_vm_command os
                       [lit "VBoxManage"; lit "startvm"; id; lit "--type";
                        if flag then lit "headless" else lit "gui"]
                       (lit "VBoxManage") (Some 120) st)
    by (destruct flag; reflexivity).
  assert (Hstop : stop_vbox_vm os id (Some flag) st
                  = _execute_vm_command os
                      [lit "VBoxManage"; lit "controlvm"; id;
                       if flag then lit "poweroff" else lit "acpipowerbutton"]
                      (lit "VBoxManage") (Some 90) st)
    by (destruct flag; reflexivity).
  repeat split; try reflexivity; try assumption.
  - unfold list_vbox_vms. apply vm_command_calls.
  - rewrite Hstart. apply vm_command_calls.
  - rewrite Hstop. apply vm_command_calls.
Qed.


(** C6. [start_vmware_vm] never builds an argument vector: for every path
    and every flag its first [command.append] is given two arguments, the
    call raises a [TypeError] to the caller, and [subprocess.run] is not
    reached.  The other three VMware operations call [subprocess.run] once
    with the table's argument vector and deadline: [vmrun list] with 60
    seconds, [vmrun -T ws stop path hard] or [... soft] with 90 seconds,
    and the guest command with 120 seconds. *)
Theorem C6_vmware_start_raises_before_running :
  forall (os : OS) (st : Procs) (vmx_path guest_user guest_pass command_to_run : str)
         (nogui : option bool) (force : bool),
    start_vmware_vm os vmx_path nogui st
    = (Raise (Exception (lit "list.append() takes exactly one argument (2 given)")), st)
    /\ list_vmware_running_vms os st
       = _execute_vm_command os [lit "vmrun"; lit "list"] (lit "vmrun") (Some 60) st
    /\ stop_vmware_vm os vmx_path (Some force) st
       = _execute_vm_command os
           [lit "vmrun"; lit "-T"; lit "ws"; lit "stop"; vmx_path;
            if force then lit "hard" else lit "soft"]
           (lit "vmrun") (Some 90) st
    /\ execute_command_in_vmware_guest os vmx_path guest_user guest_pass command_to_run st
       = _execute_vm_command os
           [lit "vmrun"; lit "-T"; lit "ws"; lit "-gu"; guest_user; lit "-gp"; guest_pass;
            lit "runProgramInGuest"; vmx_path; lit "-activeWindow"; command_to_run]
           (lit "vmrun") (Some 120) st
    /\ (forall (argv : list str) (tool : str) (seconds : option Z),
           calls (snd (_execute_vm_command os argv tool seconds st))
           = calls st ++ [{| args := argv; encoding := utf_8;
                             timeout := default 60 seconds |}]).
Proof.
  intros os st vmx_path guest_user guest_pass command_to_run nogui force.
  repeat split.
  - destruct nogui as [[|]|]; reflexivity.
  - destruct force; reflexivity.
  - intros argv tool seconds. apply vm_command_calls.
Qed.


(** C7. The wrapping depends on the raw arguments and the shell type
    alone: [cmd] gives [cmd /c] followed by the raw arguments, [powershell]
    gives [powershell -NoProfile -Command] followed by them, and on every
    machine, in every state and with every timeout that argument vector is
    the one handed to [subprocess.run].  The two prefixes share no token,
    and a token of one shell's prefix occurs in the vector built for the
    other shell only where the raw arguments themselves contain it. *)
Theorem C7_shell_wrapping :
  (forall command : list str,
      full_command command (lit "cmd") = Some (lit "cmd" :: lit "/c" :: command))
  /\ (forall command : list str,
         full_command command (lit "powershell")
         = Some (lit "powershell" :: lit "-NoProfile" :: lit "-Command" :: command))
  /\ (forall (os : OS) (st : Procs) (command : list str) (shell_type : str)
             (seconds : option Z),
         calls (snd (execute_command os command (Some shell_type) seconds st))
         = calls st
           ++ match full_command command shell_type with
              | Some argv => [{| args := argv; encoding := cp850;
                                 timeout := default 30 seconds |}]
              | None => []
              end)
  /\ (forall token : str, In token cmd_tokens -> ~ In token powershell_tokens)
  /\ (forall (command argv : list str) (token : str),
         full_command command (lit "powershell") = Some argv ->
         In token cmd_tokens -> In token argv -> In token command)
  /\ (forall (command argv : list str) (token : str),
         full_command command (lit "cmd") = Some argv ->
         In token powershell_tokens -> In token argv -> In token command).
Proof.
  assert (disjoint : forall token, In token cmd_tokens -> ~ In token powershell_tokens).
  { intros token [<-|[<-|[]]] [H|[H|[H|[]]]]; vm_compute in H; discriminate. }
  split; [exact full_command_cmd|].
  split; [exact full_command_powershell|].
  split; [intros; apply execute_command_calls|].
  split; [exact disjoint|].
  split.
  - intros command argv token F Hc Ha.
    rewrite full_command_powershell in F. injection F as <-.
    destruct Ha as [E|[E|[E|Ha]]]; [| | |exact Ha];
      exfalso; apply (disjoint token Hc); rewrite <- E; simpl; tauto.
  - intros command argv token F Hp Ha.
    rewrite full_command_cmd in F. injection F as <-.
    destruct Ha as [E|[E|Ha]]; [| |exact Ha];
      exfalso; refine (disjoint token _ Hp); rewrite <- E; simpl; tauto.
Qed.


(** C7 at work: tokens of the other shell found in an argument vector are
    traced back to the raw arguments. *)
Lemma C7_shell_wrapping_witness :
  In (lit "/c") [lit "cmd"; lit "/c"; lit "dir"]
  /\ In (lit "-Command") [lit "-Command"; lit "Get-Date"].
Proof.
  split.
  - apply (proj1 (proj2 (proj2 (proj2 (proj2 C7_shell_wrapping))))
             [lit "cmd"; lit "/c"; lit "dir"]
             [lit "powershell"; lit "-NoProfile"; lit "-Command";
              lit "cmd"; lit "/c"; lit "dir"]
             (lit "/c")).
    + reflexivity.
    + simpl. tauto.
    + simpl. tauto.
  - apply (proj2 (proj2 (proj2 (proj2 (proj2 C7_shell_wrapping))))
             [lit "-Command"; lit "Get-Date"]
             [lit "cmd"; lit "/c"; lit "-Command"; lit "Get-Date"]
             (lit "-Command")).
    + reflexivity.
    + simpl. tauto.
    + simpl. tauto.
Defined.


(** C7, as the specification words it, fails: the raw arguments are
    passed through untouched, so a raw argument [/c] is in the argument
    vector built for PowerShell although [/c] is a wrapping token of
    [cmd]. *)
Lemma C7_wrapping_token_counterexample :
  full_command [lit "/c"; lit "dir"] (lit "powershell")
  = Some [lit "powershell"; lit "-NoProfile"; lit "-Command"; lit "/c"; lit "dir"]
  /\ In (lit "/c") cmd_tokens
  /\ In (lit "/c") [lit "powershell"; lit "-NoProfile"; lit "-Command"; lit "/c"; lit "dir"].
Proof.
  split; [reflexivity|]. split; simpl; tauto.
Qed.


(** C8. A shell type other than [cmd] and [powershell] is turned down
    before anything is run, and the refusal is an ordinary returned result:
    the pair of [False] and a message naming the shell type.  Nothing is
    raised, no call of [subprocess.run] is made and no process is created:
    the machine is left exactly as it was. *)
Theorem C8_unknown_shell_is_a_returned_failure :
  forall (os : OS) (st : Procs) (command : list str) (shell_type : str)
         (seconds : option Z),
    shell_type <> lit "cmd" ->
    shell_type <> lit "powershell" ->
    execute_command os command (Some shell_type) seconds st
    = (Return (false, lit "Tipo de shell desconhecido: " ++ shell_type), st).
Proof.
  intros os st command shell_type seconds C P.
  unfold execute_command, try. cbn [default].
  now rewrite (full_command_unknown command C P).
Qed.


(** C8 at work: the shell type [bash]. *)
Lemma C8_unknown_shell_is_a_returned_failure_witness :
  execute_command hangs [lit "dir"] (Some (lit "bash")) (Some 5) idle
  = (Return (false, lit "Tipo de shell desconhecido: " ++ lit "bash"), idle).
Proof.
  apply (@C8_unknown_shell_is_a_returned_failure hangs idle [lit "dir"] (lit "bash") (Some 5));
    vm_compute; discriminate.
Defined.


(** C8, as the specification words it, fails: asked for the shell [bash],
    [execute_command] does not raise anything to its caller; it returns
    the pair of [False] and a message. *)
Lemma C8_unknown_shell_counterexample :
  fst (execute_command hangs [lit "dir"] (Some (lit "bash")) None idle)
  = Return (false, lit "Tipo de shell desconhecido: bash")
  /\ forall e : Exn,
       fst (execute_command hangs [lit "dir"] (Some (lit "bash")) None idle) <> Raise e.
Proof.
  split; [reflexivity|]. intros e. vm_compute. discriminate.
Qed.


(** C9. The encoding is fixed in the code: every call [execute_command]
    makes asks for code page 850 and every call [_execute_vm_command] makes
    asks for UTF-8, whatever the arguments.  Code page 850 decodes every
    byte sequence.  When a stream captured by [_execute_vm_command] is not
    valid UTF-8 nothing is decoded loosely, and what comes back depends on
    the system.  Off Windows the result is [False] with the message for
    unexpected errors carrying the text of the decoding error, whatever
    the exit code.  On Windows the stream comes back as [None]: with exit
    code 0 an undecodable standard output gives [False] with the message
    for unexpected errors, which tells that [None] has no [strip], while a
    standard output that decodes gives [True] with it, whatever the
    standard error holds; with another exit code an undecodable standard
    error gives that same message for unexpected errors, and an undecodable
    standard output next to a standard error that decodes gives the report
    of the exit code and the standard error alone. *)
Theorem C9_fixed_encoding_and_strict_decoding :
  (forall (os : OS) (st : Procs) (command : list str) (shell_type : option str)
          (seconds : option Z) (req : RunRequest),
      In req (calls (snd (execute_command os command shell_type seconds st))) ->
      In req (calls st) \/ encoding req = cp850)
  /\ (forall (os : OS) (st : Procs) (command : list str) (tool_name : str)
             (seconds : option Z) (req : RunRequest),
         In req (calls (snd (_execute_vm_command os command tool_name seconds st))) ->
         In req (calls st) \/ encoding req = utf_8)
  /\ (forall bs : bytes, decode cp850 bs = inl (cp850_decode bs))
  /\ (forall (os : OS) (st : Procs) (program : str) (rest : list str) (tool_name : str)
             (seconds : option Z) (code : Z) (out err : bytes) (x : DecodeError),
         is_windows os = false ->
         located os program = true ->
         child os (program :: rest) (default 60 seconds) = Exits code out err ->
         decode utf_8 out = inr x
         \/ (exists o : str, decode utf_8 out = inl o) /\ decode utf_8 err = inr x ->
         fst (_execute_vm_command os (program :: rest) tool_name seconds st)
         = Return (false, lit "Erro inesperado ao executar " ++ tool_name ++ lit ": "
                          ++ str_of_decode_error x))
  /\ (forall (os : OS) (st : Procs) (program : str) (rest : list str) (tool_name : str)
             (seconds : option Z) (code : Z) (out err : bytes),
         is_windows os = true ->
         located os program = true ->
         child os (program :: rest) (default 60 seconds) = Exits code out err ->
         let r := fst (_execute_vm_command os (program :: rest) tool_name seconds st) in
         let lost :=
           Return (false, lit "Erro inesperado ao executar " ++ tool_name ++ lit ": "
                          ++ lit "'NoneType' object has no attribute 'strip'") in
         (forall x : DecodeError, code = 0 -> decode utf_8 out = inr x -> r = lost)
         /\ (forall o : str, code = 0 -> decode utf_8 out = inl o ->
               r = Return (true, strip (translate_newlines o)))
         /\ (forall x : DecodeError, code <> 0 -> decode utf_8 err = inr x -> r = lost)
         /\ (forall (e : str) (x : DecodeError),
               code <> 0 -> decode utf_8 err = inl e -> decode utf_8 out = inr x ->
               r = Return (false, lit "Erro ao executar " ++ tool_name ++ lit " (código "
                                  ++ str_of_int code ++ lit "):" ++ nl
                                  ++ strip (translate_newlines e)))).
Proof.
  split; [|split; [|split; [|split]]].
  - intros os st command shell_type seconds req H.
    rewrite execute_command_calls in H. apply in_app_or in H as [H|H]; [now left|].
    right. destruct (full_command _ _); [|destruct H].
    destruct H as [<-|[]]. reflexivity.
  - intros os st command tool_name seconds req H.
    rewrite vm_command_calls in H. apply in_app_or in H as [H|H]; [now left|].
    right. destruct H as [<-|[]]. reflexivity.
  - reflexivity.
  - intros os st program rest tool_name seconds code out err x W L C [Do|[[o Do] De]];
      unfold _execute_vm_command, try, bind.
    + now rewrite (run_undecodable_stdout os program rest utf_8 (default 60 seconds)
                     st W L C Do).
    + now rewrite (run_undecodable_stderr os program rest utf_8 (default 60 seconds)
                     st W L C Do De).
  - intros os st program rest tool_name seconds code out err W L C r lost.
    subst r lost. unfold _execute_vm_command, try, bind.
    rewrite (run_exits_windows os program rest utf_8 (default 60 seconds) st W L C).
    unfold read_in_thread. cbn [returncode stdout stderr].
    split; [|split; [|split]].
    + intros x -> Do. rewrite Do. reflexivity.
    + intros o -> Do. rewrite Do. reflexivity.
    + intros x N De. apply Z.eqb_neq in N. rewrite N, De. reflexivity.
    + intros e x N De Do. apply Z.eqb_neq in N. rewrite N, De, Do. reflexivity.
Qed.


(** C9 at work: the directory listing was asked for in code page 850
    and the list of virtual machines in UTF-8; a Latin-1 message on the
    standard error of a failing tool, off Windows and on it; and on
    Windows a tool that exits with code 0 after printing a byte that is
    not UTF-8, one that exits with code 0 after a warning in Latin-1, and
    one that fails after printing such a byte. *)
Lemma C9_fixed_encoding_and_strict_decoding_witness :
  (In {| args := [lit "cmd"; lit "/c"; lit "dir"]; encoding := cp850; timeout := 30 |}
      (calls idle)
   \/ encoding {| args := [lit "cmd"; lit "/c"; lit "dir"]; encoding := cp850;
                  timeout := 30 |} = cp850)
  /\ (In {| args := [lit "vmrun"; lit "list"]; encoding := utf_8; timeout := 60 |}
         (calls idle)
      \/ encoding {| args := [lit "vmrun"; lit "list"]; encoding := utf_8;
                     timeout := 60 |} = utf_8)
  /\ fst (_execute_vm_command vmrun_fails_latin1 [lit "vmrun"; lit "list"]
            (lit "vmrun") None idle)
     = Return (false,
               lit "Erro inesperado ao executar " ++ lit "vmrun" ++ lit ": "
               ++ lit "'utf-8' codec can't decode byte 0xe7 in position 11: invalid continuation byte")
  /\ fst (_execute_vm_command (on_windows vmrun_fails_latin1) [lit "vmrun"; lit "list"]
            (lit "vmrun") None idle)
     = Return (false,
               lit "Erro inesperado ao executar " ++ lit "vmrun" ++ lit ": "
               ++ lit "'NoneType' object has no attribute 'strip'")
  /\ fst (_execute_vm_command (on_windows prints_byte_ff) [lit "vmrun"; lit "list"]
            (lit "vmrun") None idle)
     = Return (false,
               lit "Erro inesperado ao executar " ++ lit "vmrun" ++ lit ": "
               ++ lit "'NoneType' object has no attribute 'strip'")
  /\ fst (_execute_vm_command (on_windows warns_in_latin1) [lit "vmrun"; lit "list"]
            (lit "vmrun") None idle)
     = Return (true, lit "Total running VMs: 0")
  /\ fst (_execute_vm_command (on_windows fails_after_byte_ff) [lit "vmrun"; lit "list"]
            (lit "vmrun") None idle)
     = Return (false, lit "Erro ao executar " ++ lit "vmrun" ++ lit " (código "
                      ++ str_of_int 2 ++ lit "):" ++ nl ++ lit "failed").
Proof.
  pose proof C9_fixed_encoding_and_strict_decoding as (A & B & _ & P & W).
  pose (e7 := {| codec := lit "utf-8"; bad_byte := 231; start := 11; stop := 12;
                 reason := lit "invalid continuation byte" |}).
  pose (ff := {| codec := lit "utf-8"; bad_byte := 255; start := 0; stop := 1;
                 reason := lit "invalid start byte" |}).
  split; [|split; [|split; [|split; [|split; [|split]]]]].
  - apply (A shell_prints_line idle [lit "dir"] None None). left. reflexivity.
  - apply (B hangs idle [lit "vmrun"; lit "list"] (lit "vmrun") None). left. reflexivity.
  - apply (P vmrun_fails_latin1 idle (lit "vmrun") [lit "list"] (lit "vmrun") None 3 []
             (ascii_bytes "Erro: opera" ++ [xe7; xe3] ++ ascii_bytes "o falhou") e7);
      try reflexivity.
    right. split; [exists []; reflexivity|]. vm_compute. reflexivity.
  - apply (proj1 (proj2 (proj2
             (W (on_windows vmrun_fails_latin1) idle (lit "vmrun") [lit "list"]
                (lit "vmrun") None 3 []
                (ascii_bytes "Erro: opera" ++ [xe7; xe3] ++ ascii_bytes "o falhou")
                eq_refl eq_refl eq_refl))) e7).
    + discriminate.
    + vm_compute. reflexivity.
  - apply (proj1
             (W (on_windows prints_byte_ff) idle (lit "vmrun") [lit "list"]
                (lit "vmrun") None 0 [xff] [] eq_refl eq_refl eq_refl) ff).
    + reflexivity.
    + vm_compute. reflexivity.
  - apply (proj1 (proj2
             (W (on_windows warns_in_latin1) idle (lit "vmrun") [lit "list"]
                (lit "vmrun") None 0 (ascii_bytes "Total running VMs: 0" ++ crlf)
                (ascii_bytes "Aten" ++ [xe7; xe3] ++ ascii_bytes "o" ++ crlf)
                eq_refl eq_refl eq_refl))
             (lit "Total running VMs: 0" ++ [13%N; 10%N])).
    + reflexivity.
    + vm_compute. reflexivity.
  - apply (proj2 (proj2 (proj2
             (W (on_windows fails_after_byte_ff) idle (lit "vmrun") [lit "list"]
                (lit "vmrun") None 2 [xff] (ascii_bytes "failed")
                eq_refl eq_refl eq_refl))) (lit "failed") ff).
    + discriminate.
    + vm_compute. reflexivity.
    + vm_compute. reflexivity.
Defined.


(** C9, as the specification words it, fails: [vmrun] exits with code 0
    after printing the byte FF, which is not UTF-8.  Decoded loosely the
    output would be the replacement character and the call would succeed
    with it; the code instead returns [False] with the message for
    unexpected errors, off Windows and on it. *)
Lemma C9_lossy_decoding_counterexample :
  (exists x : DecodeError, decode utf_8 [xff] = inr x)
  /\ child prints_byte_ff [lit "vmrun"; lit "list"] 60 = Exits 0 [xff] []
  /\ fst (_execute_vm_command prints_byte_ff [lit "vmrun"; lit "list"] (lit "vmrun") None idle)
     = Return (false,
               lit "Erro inesperado ao executar vmrun: 'utf-8' codec can't decode byte 0xff in position 0: invalid start byte")
  /\ fst (_execute_vm_command prints_byte_ff [lit "vmrun"; lit "list"] (lit "vmrun") None idle)
     <> Return (true, [65533%N])
  /\ child (on_windows prints_byte_ff) [lit "vmrun"; lit "list"] 60 = Exits 0 [xff] []
  /\ fst (_execute_vm_command (on_windows prints_byte_ff) [lit "vmrun"; lit "list"]
            (lit "vmrun") None idle)
     = Return (false,
               lit "Erro inesperado ao executar vmrun: 'NoneType' object has no attribute 'strip'")
  /\ fst (_execute_vm_command (on_windows prints_byte_ff) [lit "vmrun"; lit "list"]
            (lit "vmrun") None idle)
     <> Return (true, [65533%N]).
Proof.
  split; [eexists; reflexivity|]. split; [reflexivity|].
  split; [vm_compute; reflexivity|]. split; [vm_compute; discriminate|].
  split; [reflexivity|].
  split; vm_compute; [reflexivity|discriminate].
Qed.


(** C10. Called without a timeout, [execute_command] behaves as with the
    timeout 30 and hands [subprocess.run] the deadline 30, and
    [_execute_vm_command] behaves as with the timeout 60 and hands it the
    deadline 60. *)
Theorem C10_default_deadlines :
  forall (os : OS) (st : Procs) (command : list str) (shell_type : option str)
         (tool_name : str),
    execute_command os command shell_type None st
    = execute_command os command shell_type (Some 30) st
    /\ calls (snd (execute_command os command shell_type None st))
       = calls st
         ++ match full_command command (default (lit "cmd") shell_type) with
            | Some argv => [{| args := argv; encoding := cp850; timeout := 30 |}]
            | None => []
            end
    /\ _execute_vm_command os command tool_name None st
       = _execute_vm_command os command tool_name (Some 60) st
    /\ calls (snd (_execute_vm_command os command tool_name None st))
       = calls st ++ [{| args := command; encoding := utf_8; timeout := 60 |}].
Proof.
  intros os st command shell_type tool_name. repeat split.
  - apply execute_command_calls.
  - apply vm_command_calls.
Qed.

(** ** Further facts about text and about the executors *)

Module GatewayFacts.

Import Text Host HostFacts ExecutorFacts windows_automator vm_manager.
Local Open Scope Z_scope.

(** *** [strip] *)

Lemma lstrip_split (s : str) :
  exists pre : str, s = pre ++ lstrip s /\ forallb isspace pre = true.
Proof.
  induction s as [|c s IH].
  - now exists [].
  - simpl. destruct (isspace c) eqn:E.
    + destruct IH as (pre & Hs & Hp). exists (c :: pre). split.
      * simpl. now rewrite <- Hs.
      * simpl. now rewrite E, Hp.
    + now exists [].
Qed.

Lemma lstrip_head (s : str) :
  match lstrip s with
  | [] => True
  | c :: _ => isspace c = false
  end.
Proof.
  induction s as [|c s IH]; simpl; [exact I|].
  destruct (isspace c) eqn:E; [exact IH|exact E].
Qed.

Lemma rstrip_split (s : str) :
  exists post : str, s = rstrip s ++ post /\ forallb isspace post = true.
Proof.
  unfold rstrip. destruct (lstrip_split (rev s)) as (pre & Hs & Hp).
  exists (rev pre). split.
  - rewrite <- rev_app_distr, <- Hs. now rewrite rev_involutive.
  - rewrite forallb_forall in *. intros c Hc. apply Hp. now apply in_rev.
Qed.

Lemma strip_split (s : str) :
  exists pre post : str,
    s = pre ++ strip s ++ post
    /\ forallb isspace pre = true /\ forallb isspace post = true.
Proof.
  destruct (lstrip_split s) as (pre & Hs & Hp).
  destruct (rstrip_split (lstrip s)) as (post & Ht & Hq).
  exists pre, post. repeat split; [|exact Hp|exact Hq].
  unfold strip. now rewrite <- Ht.
Qed.

Lemma strip_trimmed (s : str) : trimmed (strip s).
Proof.
  split.
  - destruct (rstrip_split (lstrip s)) as (post & Ht & _).
    fold (strip s) in Ht. pose proof (lstrip_head s) as Hh.
    destruct (strip s) as [|c r]; [exact I|].
    rewrite Ht in Hh. exact Hh.
  - unfold strip, rstrip. rewrite rev_involutive. apply lstrip_head.
Qed.

Lemma strip_keeps (s : str) (c : N) : In c (strip s) -> In c s.
Proof.
  destruct (strip_split s) as (pre & post & Hs & _). intros H.
  rewrite Hs. apply in_or_app. right. apply in_or_app. now left.
Qed.

(** *** Universal newlines *)

Lemma translate_other (c : N) (r : str) :
  c <> 13%N -> translate_newlines (c :: r) = c :: translate_newlines r.
Proof.
  intros H. destruct c as [|p]; [reflexivity|].
  do 4 (try (destruct p as [p|p|]; try reflexivity)).
  contradiction.
Qed.

Lemma translate_cr (r : str) :
  exists r' : str,
    translate_newlines (13%N :: r) = 10%N :: translate_newlines r'
    /\ (List.length r' <= List.length r)%nat.
Proof.
  destruct r as [|d r]; [exists []; split; [reflexivity|apply le_n]|].
  destruct (N.eq_dec d 10) as [->|H].
  - exists r. split; [reflexivity|]. simpl. apply le_S, le_n.
  - exists (d :: r). split; [|apply le_n].
    destruct d as [|p]; [reflexivity|].
    do 4 (try (destruct p as [p|p|]; try reflexivity)).
    contradiction.
Qed.

Lemma translate_has_no_cr (s : str) : ~ In 13%N (translate_newlines s).
Proof.
  remember (List.length s) as n eqn:Hn.
  assert (Hle : (List.length s <= n)%nat) by (subst n; apply le_n).
  clear Hn. revert s Hle.
  induction n as [|n IH]; intros s Hle.
  - destruct s; [intros []|inversion Hle].
  - destruct s as [|c r]; [intros []|].
    simpl in Hle. apply le_S_n in Hle.
    destruct (N.eq_dec c 13) as [->|Hc].
    + destruct (translate_cr r) as (r' & -> & Hr').
      intros [E|H]; [discriminate|].
      apply (IH r'); [|exact H]. now apply Nat.le_trans with (List.length r).
    + rewrite (translate_other r Hc). intros [E|H]; [congruence|].
      now apply (IH r).
Qed.

(** *** Searching *)

Lemma startswith_app (a b : str) : startswith a (a ++ b) = true.
Proof.
  induction a as [|c a IH]; [reflexivity|]. simpl.
  now rewrite N.eqb_refl, IH.
Qed.

Lemma startswith_occurs (a s : str) : startswith a s = true -> occurs a s = true.
Proof. intros H. destruct s; simpl in *; now rewrite H. Qed.

Lemma occurs_app_r (a pre s : str) : occurs a s = true -> occurs a (pre ++ s) = true.
Proof.
  intros H. induction pre as [|c pre IH]; [exact H|].
  simpl. rewrite IH. apply orb_true_r.
Qed.

Lemma startswith_app_l (a s t : str) :
  startswith a s = true -> startswith a (s ++ t) = true.
Proof.
  revert s. induction a as [|c a IH]; intros s H; [reflexivity|].
  destruct s as [|d s]; [discriminate|]. simpl in *.
  apply andb_true_iff in H as [E H]. now rewrite E, (IH s H).
Qed.

Lemma occurs_app_l (a s t : str) : occurs a s = true -> occurs a (s ++ t) = true.
Proof.
  induction s as [|c s IH]; intros H.
  - simpl in H. rewrite orb_false_r in H. destruct a; [|discriminate].
    destruct t; reflexivity.
  - simpl in H. apply orb_true_iff in H as [H|H].
    + apply startswith_occurs. now apply startswith_app_l.
    + change (occurs a (c :: (s ++ t)) = true). simpl. rewrite (IH H).
      apply orb_true_r.
Qed.

(** *** The machine after a call *)

Lemma run_state (os : OS) (req : RunRequest) (st : Procs) :
  snd (subprocess_run os req st) = noted req st
  \/ snd (subprocess_run os req st) = served req st.
Proof.
  unfold subprocess_run, bind, record, raise, ret, decoded, spawn, wait, kill.
  destruct (args req) as [|program rest]; [now left|].
  destruct (located os program); [|now left].
  destruct (child os (program :: rest) (timeout req)) as [code out err| |detail];
    [|now right|now left].
  simpl. destruct (decode (encoding req) out), (decode (encoding req) err),
    (is_windows os); now right.
Qed.

Lemma without_fresh (pid : nat) (l : list nat) :
  (forall p, In p l -> (p < pid)%nat) -> without pid (pid :: l) = l.
Proof.
  intros H. unfold without. simpl. rewrite Nat.eqb_refl. simpl.
  induction l as [|q l IH]; [reflexivity|]. simpl.
  assert (Hq : (q < pid)%nat) by (apply H; now left).
  destruct (Nat.eqb_spec q pid) as [->|_]; [now apply Nat.lt_irrefl in Hq|].
  simpl. f_equal. apply IH. intros p Hp. apply H. now right.
Qed.

Lemma tidy_after_run (os : OS) (req : RunRequest) (st : Procs) :
  tidy st ->
  let st' := snd (subprocess_run os req st) in
  tidy st' /\ running st' = running st
  /\ (next_pid st' = next_pid st \/ next_pid st' = S (next_pid st)).
Proof.
  intros T st'. subst st'.
  destruct (run_state os req st) as [-> | ->].
  - repeat split; [exact T|now left].
  - assert (R : running (served req st) = running st) by (apply without_fresh, T).
    repeat split; [|exact R|now right].
    intros p Hp. rewrite R in Hp. simpl. apply Nat.lt_lt_succ_r. now apply T.
Qed.

(** *** Reading a result backwards *)

Lemma execute_command_true (os : OS) (st : Procs) (command : list str)
    (shell_type : str) (seconds : option Z) (text : str) :
  fst (execute_command os command (Some shell_type) seconds st) = Return (true, text) ->
  exists (argv : list str) (out err : bytes),
    full_command command shell_type = Some argv
    /\ located os shell_type = true
    /\ child os argv (default 30 seconds) = Exits 0 out err
    /\ text = strip (translate_newlines (cp850_decode out)).
Proof.
  unfold execute_command, try, bind. cbn [default].
  destruct (full_command command shell_type) as [argv|] eqn:F;
    [|unfold ret; cbn [fst]; congruence].
  destruct (full_command_head _ _ F) as [_ [tail ->]].
  destruct (located os shell_type) eqn:L.
  - destruct (child os (shell_type :: tail) (default 30 seconds))
      as [code out err| |detail] eqn:C.
    + rewrite (run_exits os shell_type tail cp850 (default 30 seconds) st
                 (o := cp850_decode out) (e := cp850_decode err) L C eq_refl eq_refl).
      cbn [returncode stdout stderr fst]. unfold strip_of, truthy, bind, ret.
      destruct (code =? 0) eqn:E.
      * apply Z.eqb_eq in E. subst code. cbn [fst]. intros [= <-].
        now exists (shell_type :: tail), out, err.
      * destruct (nonempty _); cbn [fst]; congruence.
    + rewrite (run_still_running os shell_type tail cp850 (default 30 seconds) st L C).
      unfold ret; cbn [fst]; congruence.
    + rewrite (run_refused os shell_type tail cp850 (default 30 seconds) st L C).
      unfold ret; cbn [fst]; congruence.
  - rewrite (run_not_located os shell_type tail cp850 (default 30 seconds) st L).
    unfold ret; cbn [fst]; congruence.
Qed.

Lemma vm_command_true (os : OS) (st : Procs) (command : list str) (tool_name : str)
    (seconds : option Z) (text : str) :
  fst (_execute_vm_command os command tool_name seconds st) = Return (true, text) ->
  exists (program : str) (rest : list str) (out err : bytes) (o : str),
    command = program :: rest
    /\ located os program = true
    /\ child os command (default 60 seconds) = Exits 0 out err
    /\ decode utf_8 out = inl o
    /\ (is_windows os = true \/ exists e : str, decode utf_8 err = inl e)
    /\ text = strip (translate_newlines o).
Proof.
  unfold _execute_vm_command, try, bind.
  destruct command as [|program rest].
  - unfold subprocess_run, bind, record, raise, ret. cbn. congruence.
  - destruct (located os program) eqn:L.
    + destruct (child os (program :: rest) (default 60 seconds))
        as [code out err| |detail] eqn:C.
      * destruct (is_windows os) eqn:W.
        -- rewrite (run_exits_windows os program rest utf_8 (default 60 seconds) st W L C).
           unfold read_in_thread. cbn [returncode stdout stderr fst].
           unfold strip_of, truthy, bind, ret, raise.
           destruct (code =? 0) eqn:E.
           ++ apply Z.eqb_eq in E. subst code.
              destruct (decode utf_8 out) as [o|x] eqn:Do; cbn [fst]; [|congruence].
              intros [= <-]. exists program, rest, out, err, o.
              repeat split; try assumption. now left.
           ++ destruct (decode utf_8 err); [|cbn [fst]; congruence].
              destruct (decode utf_8 out) as [o|x]; [destruct (nonempty _)|];
                cbn [fst]; congruence.
        -- destruct (decode utf_8 out) as [o|x] eqn:Do.
           ++ destruct (decode utf_8 err) as [e|x] eqn:De.
              ** rewrite (run_exits os program rest utf_8 (default 60 seconds) st L C Do De).
                 cbn [returncode stdout stderr fst].
                 unfold strip_of, truthy, bind, ret.
                 destruct (code =? 0) eqn:E.
                 --- apply Z.eqb_eq in E. subst code. cbn [fst]. intros [= <-].
                     exists program, rest, out, err, o.
                     repeat split; try assumption. right. now exists e.
                 --- destruct (nonempty _); cbn [fst]; congruence.
              ** rewrite (run_undecodable_stderr os program rest utf_8
                            (default 60 seconds) st W L C Do De).
                 unfold ret; cbn [fst]; congruence.
           ++ rewrite (run_undecodable_stdout os program rest utf_8 (default 60 seconds)
                         st W L C Do).
              unfold ret; cbn [fst]; congruence.
      * rewrite (run_still_running os program rest utf_8 (default 60 seconds) st L C).
        unfold ret; cbn [fst]; congruence.
      * rewrite (run_refused os program rest utf_8 (default 60 seconds) st L C).
        unfold ret; cbn [fst]; congruence.
    + rewrite (run_not_located os program rest utf_8 (default 60 seconds) st L).
      unfold ret; cbn [fst]; congruence.
Qed.

End GatewayFacts.

Module CallerFacts.

Import Text Host HostFacts ExecutorFacts GatewayFacts windows_automator vm_manager.
Local Open Scope Z_scope.

(** What is left of a failed call is a text that begins with [Erro],
    unless the shell type was turned down. *)
Lemma vm_command_false (os : OS) (st : Procs) (command : list str) (tool_name : str)
    (seconds : option Z) (text : str) :
  fst (_execute_vm_command os command tool_name seconds st) = Return (false, text) ->
  startswith (lit "Erro") text = true.
Proof.
  unfold _execute_vm_command, try, bind.
  destruct (subprocess_run _ _ st) as [[result|e] st']; cbn [fst].
  - through result; try congruence; intros [= <-]; reflexivity.
  - destruct e; unfold ret; cbn [fst]; intros [= <-]; reflexivity.
Qed.

Lemma execute_command_false (os : OS) (st : Procs) (command : list str)
    (shell_type : str) (seconds : option Z) (text : str) :
  fst (execute_command os command (Some shell_type) seconds st) = Return (false, text) ->
  startswith (lit "Erro") text = true
  \/ (full_command command shell_type = None
      /\ text = lit "Tipo de shell desconhecido: " ++ shell_type).
Proof.
  unfold execute_command, try, bind. cbn [default].
  destruct (full_command command shell_type) as [argv|].
  - intros H. left. revert H.
    destruct (subprocess_run _ _ st) as [[result|e] st']; cbn [fst].
    + through result; try congruence; intros [= <-]; reflexivity.
    + destruct e; unfold ret; cbn [fst]; intros [= <-]; reflexivity.
  - unfold ret. cbn [fst]. intros [= <-]. now right.
Qed.

Lemma start_vbox_vm_runs (os : OS) (id : str) (headless : option bool) (st : Procs) :
  start_vbox_vm os id headless st
  = _execute_vm_command os
      [lit "VBoxManage"; lit "startvm"; id; lit "--type";
       if default false headless then lit "headless" else lit "gui"]
      (lit "VBoxManage") (Some 120) st.
Proof. destruct headless as [[|]|]; reflexivity. Qed.

Lemma stop_vbox_vm_runs (os : OS) (id : str) (force : option bool) (st : Procs) :
  stop_vbox_vm os id force st
  = _execute_vm_command os
      [lit "VBoxManage"; lit "controlvm"; id;
       if default false force then lit "poweroff" else lit "acpipowerbutton"]
      (lit "VBoxManage") (Some 90) st.
Proof. destruct force as [[|]|]; reflexivity. Qed.

Lemma stop_vmware_vm_runs (os : OS) (vmx_path : str) (force : option bool) (st : Procs) :
  stop_vmware_vm os vmx_path force st
  = _execute_vm_command os
      [lit "vmrun"; lit "-T"; lit "ws"; lit "stop"; vmx_path;
       if default false force then lit "hard" else lit "soft"]
      (lit "vmrun") (Some 90) st.
Proof. destruct force as [[|]|]; reflexivity. Qed.

Lemma vm_command_missing (os : OS) (st : Procs) (program : str) (rest : list str)
    (tool_name : str) (seconds : option Z) :
  located os program = false ->
  _execute_vm_command os (program :: rest) tool_name seconds st
  = (Return (false, lit "Erro: Ferramenta " ++ nl ++ lit "              '" ++ tool_name
                    ++ lit "' não encontrada. Verifique a instalação e o PATH."),
     noted {| args := program :: rest; encoding := utf_8;
              timeout := default 60 seconds |} st).
Proof.
  intros L. unfold _execute_vm_command, try, bind.
  now rewrite (run_not_located os program rest utf_8 (default 60 seconds) st L).
Qed.

Lemma vm_command_hangs (os : OS) (st : Procs) (program : str) (rest : list str)
    (tool_name : str) (seconds : option Z) :
  located os program = true ->
  child os (program :: rest) (default 60 seconds) = StillRunning ->
  _execute_vm_command os (program :: rest) tool_name seconds st
  = (Return (false, lit "Erro: O comando " ++ tool_name
                    ++ lit " excedeu o tempo limite de "
                    ++ str_of_int (default 60 seconds) ++ lit " segundos."),
     served {| args := program :: rest; encoding := utf_8;
               timeout := default 60 seconds |} st).
Proof.
  intros L C. unfold _execute_vm_command, try, bind.
  now rewrite (run_still_running os program rest utf_8 (default 60 seconds) st L C).
Qed.

Lemma execute_command_pair (os : OS) (command : list str) (shell_type : option str)
    (seconds : option Z) (st : Procs) :
  exists (b : bool) (text : str),
    fst (execute_command os command shell_type seconds st) = Return (b, text).
Proof.
  destruct (execute_command_returns os command shell_type seconds st) as [[b text] H].
  now exists b, text.
Qed.

Lemma list_processes_first (os : OS) (st : Procs) (text : str) :
  fst (execute_command os [lit "Get-Process"] (Some (lit "powershell")) None st)
  = Return (true, text) ->
  list_processes_windows os st
  = (Return (true, text),
     snd (execute_command os [lit "Get-Process"] (Some (lit "powershell")) None st)).
Proof.
  intros H. unfold list_processes_windows, bind.
  destruct (execute_command os [lit "Get-Process"] (Some (lit "powershell")) None st)
    as [r st'].
  cbn [fst] in H. subst r. reflexivity.
Qed.

Lemma list_processes_second (os : OS) (st : Procs) (text : str) :
  fst (execute_command os [lit "Get-Process"] (Some (lit "powershell")) None st)
  = Return (false, text) ->
  list_processes_windows os st
  = execute_command os [lit "tasklist"] (Some (lit "cmd")) None
      (snd (execute_command os [lit "Get-Process"] (Some (lit "powershell")) None st)).
Proof.
  intros H. unfold list_processes_windows, bind.
  destruct (execute_command os [lit "Get-Process"] (Some (lit "powershell")) None st)
    as [r st'].
  cbn [fst] in H. subst r. reflexivity.
Qed.

Lemma execute_command_tidy (os : OS) (command : list str) (shell_type : option str)
    (seconds : option Z) (st : Procs) :
  tidy st ->
  tidy (snd (execute_command os command shell_type seconds st))
  /\ running (snd (execute_command os command shell_type seconds st)) = running st.
Proof.
  intros T. rewrite execute_command_state.
  destruct (full_command _ _); [|now split].
  destruct (tidy_after_run os {| args := l; encoding := cp850;
                                 timeout := default 30 seconds |} T) as (A & B & _).
  now split.
Qed.

End CallerFacts.

(** ** Further properties of the code *)

Import GatewayFacts CallerFacts MoreFixtures.

(** X1. The executors keep the process table in order.  If every running
    process has an id already given out, the same holds after a call of
    either executor, the processes running are exactly those running
    before, and at most one process has been created: no child is left
    behind and no other process is touched, however the call ends. *)
Theorem X1_executors_keep_the_process_table :
  forall (os : OS) (st : Procs) (command : list str) (shell_type : option str)
         (tool_name : str) (seconds : option Z),
    tidy st ->
    let a := snd (execute_command os command shell_type seconds st) in
    let b := snd (_execute_vm_command os command tool_name seconds st) in
    (tidy a /\ running a = running st
     /\ (next_pid a = next_pid st \/ next_pid a = S (next_pid st)))
    /\ (tidy b /\ running b = running st
        /\ (next_pid b = next_pid st \/ next_pid b = S (next_pid st))).
Proof.
  intros os st command shell_type tool_name seconds T a b. subst a b. split.
  - rewrite execute_command_state.
    destruct (full_command _ _); [now apply tidy_after_run|].
    repeat split; [exact T|now left].
  - rewrite vm_command_state. now apply tidy_after_run.
Qed.

(** X1 at work: a shell that fails and a tool that hangs, started from an
    empty process table. *)
Lemma X1_executors_keep_the_process_table_witness :
  running (snd (execute_command shell_fails [lit "dir"] None None idle)) = []
  /\ running (snd (_execute_vm_command hangs [lit "vmrun"; lit "list"] (lit "vmrun")
                     None idle)) = [].
Proof.
  assert (T : tidy idle) by (intros p []).
  split.
  - exact (proj1 (proj2 (proj1 (X1_executors_keep_the_process_table
                                  shell_fails [lit "dir"] None (lit "vmrun") None T)))).
  - exact (proj1 (proj2 (proj2 (X1_executors_keep_the_process_table
                                  hangs [lit "vmrun"; lit "list"] None (lit "vmrun")
                                  None T)))).
Defined.

(** X2. Success is never reported for anything but exit code 0.  When
    [execute_command] returns [True], the shell was found, its process
    exited before the deadline with code 0, and the text is its decoded
    standard output, trimmed; when [_execute_vm_command] returns [True],
    the command was not empty, its program was found and exited with code
    0, its standard output was valid UTF-8 and the text is that output,
    decoded and trimmed.  The standard error was valid UTF-8 too, except
    on Windows, where it is not looked at. *)
Theorem X2_success_means_exit_code_zero :
  forall (os : OS) (st : Procs) (command : list str) (shell_type tool_name : str)
         (seconds : option Z) (text : str),
    (fst (execute_command os command (Some shell_type) seconds st) = Return (true, text) ->
     exists (argv : list str) (out err : bytes),
       full_command command shell_type = Some argv
       /\ located os shell_type = true
       /\ child os argv (default 30 seconds) = Exits 0 out err
       /\ text = strip (translate_newlines (cp850_decode out)))
    /\ (fst (_execute_vm_command os command tool_name seconds st) = Return (true, text) ->
        exists (program : str) (rest : list str) (out err : bytes) (o : str),
          command = program :: rest
          /\ located os program = true
          /\ child os command (default 60 seconds) = Exits 0 out err
          /\ decode utf_8 out = inl o
          /\ (is_windows os = true \/ exists e : str, decode utf_8 err = inl e)
          /\ text = strip (translate_newlines o)).
Proof.
  intros os st command shell_type tool_name seconds text. split.
  - apply execute_command_true.
  - apply vm_command_true.
Qed.

(** X2 at work: the successful directory listing came from a process that
    exited with code 0, and so did the listing of one virtual machine, off
    Windows and on it; on Windows a tool that exits with code 0 succeeds
    with its standard output whatever it wrote to its standard error. *)
Lemma X2_success_means_exit_code_zero_witness :
  (exists (argv : list str) (out err : bytes),
      full_command [lit "dir"] (lit "cmd") = Some argv
      /\ located shell_prints_line (lit "cmd") = true
      /\ child shell_prints_line argv (default 30 None) = Exits 0 out err
      /\ lit "Volume in drive C" = strip (translate_newlines (cp850_decode out)))
  /\ (exists (program : str) (rest : list str) (out err : bytes) (o : str),
         [lit "VBoxManage"; lit "list"; lit "vms"] = program :: rest
         /\ located vbox_prints_myvm program = true
         /\ child vbox_prints_myvm [lit "VBoxManage"; lit "list"; lit "vms"]
              (default 60 None) = Exits 0 out err
         /\ decode utf_8 out = inl o
         /\ (is_windows vbox_prints_myvm = true \/ exists e : str, decode utf_8 err = inl e)
         /\ [34%N] ++ lit "MyVM" ++ [34%N] ++ lit " {uuid}" = strip (translate_newlines o))
  /\ (exists (program : str) (rest : list str) (out err : bytes) (o : str),
         [lit "vmrun"; lit "list"] = program :: rest
         /\ located (on_windows warns_in_latin1) program = true
         /\ child (on_windows warns_in_latin1) [lit "vmrun"; lit "list"]
              (default 60 None) = Exits 0 out err
         /\ decode utf_8 out = inl o
         /\ (is_windows (on_windows warns_in_latin1) = true
             \/ exists e : str, decode utf_8 err = inl e)
         /\ lit "Total running VMs: 0" = strip (translate_newlines o)).
Proof.
  split; [|split].
  - apply (proj1 (X2_success_means_exit_code_zero shell_prints_line idle [lit "dir"]
                    (lit "cmd") (lit "cmd") None (lit "Volume in drive C"))).
    reflexivity.
  - apply (proj2 (X2_success_means_exit_code_zero vbox_prints_myvm idle
                    [lit "VBoxManage"; lit "list"; lit "vms"] (lit "cmd")
                    (lit "VBoxManage") None
                    ([34%N] ++ lit "MyVM" ++ [34%N] ++ lit " {uuid}"))).
    vm_compute. reflexivity.
  - apply (proj2 (X2_success_means_exit_code_zero (on_windows warns_in_latin1) idle
                    [lit "vmrun"; lit "list"] (lit "cmd") (lit "vmrun") None
                    (lit "Total running VMs: 0"))).
    vm_compute. reflexivity.
Defined.

(** X3. The text of a successful call is clean: it neither begins nor
    ends with a whitespace character, and it holds no carriage return,
    whatever bytes the process wrote. *)
Theorem X3_successful_output_is_clean :
  forall (os : OS) (st : Procs) (command : list str) (shell_type tool_name : str)
         (seconds : option Z) (text : str),
    fst (execute_command os command (Some shell_type) seconds st) = Return (true, text)
    \/ fst (_execute_vm_command os command tool_name seconds st) = Return (true, text) ->
    trimmed text /\ ~ In 13%N text.
Proof.
  intros os st command shell_type tool_name seconds text [H|H].
  - apply execute_command_true in H as (argv & out & err & _ & _ & _ & ->).
    split; [apply strip_trimmed|].
    intros Hc. apply strip_keeps in Hc. now apply translate_has_no_cr in Hc.
  - apply vm_command_true in H as (program & rest & out & err & o & _ & _ & _ & _ & _ & ->).
    split; [apply strip_trimmed|].
    intros Hc. apply strip_keeps in Hc. now apply translate_has_no_cr in Hc.
Qed.

(** X3 at work: the listing printed with leading blanks and a CR LF. *)
Lemma X3_successful_output_is_clean_witness :
  trimmed (lit "Volume in drive C") /\ ~ In 13%N (lit "Volume in drive C").
Proof.
  apply (@X3_successful_output_is_clean shell_prints_line idle [lit "dir"]
           (lit "cmd") (lit "cmd") None (lit "Volume in drive C")).
  left. reflexivity.
Defined.

(** X4. When the launch is turned down for a reason other than a missing
    program, both executors return [False] with their message for
    unexpected errors followed by the text of the error, unchanged; the
    call is recorded and no process has been created. *)
Theorem X4_refused_launch_is_reported_verbatim :
  (forall (os : OS) (st : Procs) (command argv : list str) (shell_type : str)
          (seconds : option Z) (detail : str),
      full_command command shell_type = Some argv ->
      located os shell_type = true ->
      child os argv (default 30 seconds) = Refused detail ->
      execute_command os command (Some shell_type) seconds st
      = (Return (false, lit "Erro inesperado ao executar o comando: " ++ detail),
         noted {| args := argv; encoding := cp850; timeout := default 30 seconds |} st))
  /\ (forall (os : OS) (st : Procs) (program : str) (rest : list str) (tool_name : str)
             (seconds : option Z) (detail : str),
         located os program = true ->
         child os (program :: rest) (default 60 seconds) = Refused detail ->
         _execute_vm_command os (program :: rest) tool_name seconds st
         = (Return (false, lit "Erro inesperado ao executar " ++ tool_name ++ lit ": "
                           ++ detail),
            noted {| args := program :: rest; encoding := utf_8;
                     timeout := default 60 seconds |} st)).
Proof.
  split.
  - intros os st command argv shell_type seconds detail F L C.
    destruct (full_command_head _ _ F) as [_ [tail ->]].
    unfold execute_command, try, bind. cbn [default]. rewrite F.
    now rewrite (run_refused os shell_type tail cp850 (default 30 seconds) st L C).
  - intros os st program rest tool_name seconds detail L C.
    unfold _execute_vm_command, try, bind.
    now rewrite (run_refused os program rest utf_8 (default 60 seconds) st L C).
Qed.

(** X4 at work: a machine that turns every launch down. *)
Lemma X4_refused_launch_is_reported_verbatim_witness :
  fst (execute_command refuses [lit "dir"] (Some (lit "cmd")) None idle)
  = Return (false, lit "Erro inesperado ao executar o comando: "
                   ++ lit "[WinError 5] Access is denied")
  /\ fst (_execute_vm_command refuses [lit "vmrun"; lit "list"] (lit "vmrun") None idle)
     = Return (false, lit "Erro inesperado ao executar " ++ lit "vmrun" ++ lit ": "
                      ++ lit "[WinError 5] Access is denied").
Proof.
  split.
  - rewrite (proj1 X4_refused_launch_is_reported_verbatim refuses idle [lit "dir"]
               [lit "cmd"; lit "/c"; lit "dir"] (lit "cmd") None
               (lit "[WinError 5] Access is denied") eq_refl eq_refl eq_refl).
    reflexivity.
  - rewrite (proj2 X4_refused_launch_is_reported_verbatim refuses idle (lit "vmrun")
               [lit "list"] (lit "vmrun") None (lit "[WinError 5] Access is denied")
               eq_refl eq_refl).
    reflexivity.
Defined.

(** X5. Every failure text can be recognised by its beginning.  A failed
    [_execute_vm_command] always answers with a text that begins with
    [Erro]; so does a failed [execute_command], except when it turns the
    shell type down, where the text is the refusal naming the shell type
    and nothing was run. *)
Theorem X5_failure_texts_begin_with_erro :
  forall (os : OS) (st : Procs) (command : list str) (shell_type tool_name : str)
         (seconds : option Z) (text : str),
    (fst (_execute_vm_command os command tool_name seconds st) = Return (false, text) ->
     startswith (lit "Erro") text = true /\ occurs (lit "Erro") text = true)
    /\ (fst (execute_command os command (Some shell_type) seconds st) = Return (false, text) ->
        (startswith (lit "Erro") text = true /\ occurs (lit "Erro") text = true)
        \/ (shell_type <> lit "cmd" /\ shell_type <> lit "powershell"
            /\ text = lit "Tipo de shell desconhecido: " ++ shell_type
            /\ snd (execute_command os command (Some shell_type) seconds st) = st)).
Proof.
  intros os st command shell_type tool_name seconds text. split.
  - intros H. apply vm_command_false in H. split; [exact H|].
    now apply startswith_occurs.
  - intros H. destruct (execute_command_false _ _ _ _ _ H) as [E|[F ->]].
    + left. split; [exact E|]. now apply startswith_occurs.
    + right.
      assert (C : shell_type <> lit "cmd").
      { intros ->. rewrite full_command_cmd in F. discriminate. }
      assert (P : shell_type <> lit "powershell").
      { intros ->. rewrite full_command_powershell in F. discriminate. }
      repeat split; [exact C|exact P|].
      rewrite execute_command_state. cbn [default]. now rewrite F.
Qed.

(** X5 at work: the report of a failing [vmrun]. *)
Lemma X5_failure_texts_begin_with_erro_witness :
  startswith (lit "Erro")
    (lit "Erro ao executar vmrun (código 1):" ++ nl ++ lit "Error: file not found") = true
  /\ occurs (lit "Erro")
       (lit "Erro ao executar vmrun (código 1):" ++ nl ++ lit "Error: file not found") = true.
Proof.
  apply (proj1 (X5_failure_texts_begin_with_erro vmrun_file_not_found idle
                  [lit "vmrun"; lit "list"] (lit "cmd") (lit "vmrun") None
                  (lit "Erro ao executar vmrun (código 1):" ++ nl
                   ++ lit "Error: file not found"))).
  vm_compute. reflexivity.
Defined.

(** X6. Every virtualisation operation that runs names, in its message
    for a missing tool, the very program it tried to start: without
    [VBoxManage] the three VirtualBox operations answer that [VBoxManage]
    was not found, and without [vmrun] the VMware listing, stopping and
    guest-command operations answer that [vmrun] was not found; in each
    case no process has been created. *)
Theorem X6_missing_tool_is_named_by_every_operation :
  forall (os : OS) (st : Procs) (id vmx_path guest_user guest_pass command_to_run : str)
         (flag : option bool),
    let missing (tool : str) (r : Outcome (bool * str) * Procs) :=
      fst r = Return (false, lit "Erro: Ferramenta " ++ nl ++ lit "              '" ++ tool
                             ++ lit "' não encontrada. Verifique a instalação e o PATH.")
      /\ next_pid (snd r) = next_pid st in
    (located os (lit "VBoxManage") = false ->
     missing (lit "VBoxManage") (list_vbox_vms os st)
     /\ missing (lit "VBoxManage") (start_vbox_vm os id flag st)
     /\ missing (lit "VBoxManage") (stop_vbox_vm os id flag st))
    /\ (located os (lit "vmrun") = false ->
        missing (lit "vmrun") (list_vmware_running_vms os st)
        /\ missing (lit "vmrun") (stop_vmware_vm os vmx_path flag st)
        /\ missing (lit "vmrun")
             (execute_command_in_vmware_guest os vmx_path guest_user guest_pass
                command_to_run st)).
Proof.
  intros os st id vmx_path guest_user guest_pass command_to_run flag missing.
  subst missing. cbv beta. split; intros L; repeat split.
  - unfold list_vbox_vms. now rewrite (@vm_command_missing os st _ _ _ _ L).
  - unfold list_vbox_vms. now rewrite (@vm_command_missing os st _ _ _ _ L).
  - rewrite start_vbox_vm_runs. now rewrite (@vm_command_missing os st _ _ _ _ L).
  - rewrite start_vbox_vm_runs. now rewrite (@vm_command_missing os st _ _ _ _ L).
  - rewrite stop_vbox_vm_runs. now rewrite (@vm_command_missing os st _ _ _ _ L).
  - rewrite stop_vbox_vm_runs. now rewrite (@vm_command_missing os st _ _ _ _ L).
  - unfold list_vmware_running_vms. now rewrite (@vm_command_missing os st _ _ _ _ L).
  - unfold list_vmware_running_vms. now rewrite (@vm_command_missing os st _ _ _ _ L).
  - rewrite stop_vmware_vm_runs. now rewrite (@vm_command_missing os st _ _ _ _ L).
  - rewrite stop_vmware_vm_runs. now rewrite (@vm_command_missing os st _ _ _ _ L).
  - unfold execute_command_in_vmware_guest.
    now rewrite (@vm_command_missing os st _ _ _ _ L).
  - unfold execute_command_in_vmware_guest.
    now rewrite (@vm_command_missing os st _ _ _ _ L).
Qed.

(** X6 at work: stopping a machine where neither tool is installed. *)
Lemma X6_missing_tool_is_named_by_every_operation_witness :
  fst (stop_vbox_vm bare (lit "X") (Some true) idle)
  = Return (false, lit "Erro: Ferramenta " ++ nl ++ lit "              '" ++ lit "VBoxManage"
                   ++ lit "' não encontrada. Verifique a instalação e o PATH.")
  /\ fst (stop_vmware_vm bare (lit "a.vmx") (Some true) idle)
     = Return (false, lit "Erro: Ferramenta " ++ nl ++ lit "              '" ++ lit "vmrun"
                      ++ lit "' não encontrada. Verifique a instalação e o PATH.").
Proof.
  split.
  - exact (proj1 (proj2 (proj2 (proj1 (X6_missing_tool_is_named_by_every_operation
                                         bare idle (lit "X") (lit "a.vmx") [] [] []
                                         (Some true)) eq_refl)))).
  - exact (proj1 (proj1 (proj2 (proj2 (X6_missing_tool_is_named_by_every_operation
                                         bare idle (lit "X") (lit "a.vmx") [] [] []
                                         (Some true)) eq_refl)))).
Defined.

(** X7. A virtualisation operation whose tool does not finish in time
    answers with the deadline of that operation: 60 seconds for the two
    listings, 120 for starting a VirtualBox machine and for a guest
    command, 90 for the two stopping operations. *)
Theorem X7_every_operation_reports_its_own_deadline :
  forall (os : OS) (st : Procs) (id vmx_path guest_user guest_pass command_to_run : str)
         (flag : bool),
    let late (tool : str) (seconds : Z) (r : Outcome (bool * str) * Procs) :=
      fst r = Return (false, lit "Erro: O comando " ++ tool
                             ++ lit " excedeu o tempo limite de "
                             ++ str_of_int seconds ++ lit " segundos.") in
    (located os (lit "VBoxManage") = true ->
     (child os [lit "VBoxManage"; lit "list"; lit "vms"] 60 = StillRunning ->
      late (lit "VBoxManage") 60 (list_vbox_vms os st))
     /\ (child os [lit "VBoxManage"; lit "startvm"; id; lit "--type";
                   if flag then lit "headless" else lit "gui"] 120 = StillRunning ->
         late (lit "VBoxManage") 120 (start_vbox_vm os id (Some flag) st))
     /\ (child os [lit "VBoxManage"; lit "controlvm"; id;
                   if flag then lit "poweroff" else lit "acpipowerbutton"] 90
         = StillRunning ->
         late (lit "VBoxManage") 90 (stop_vbox_vm os id (Some flag) st)))
    /\ (located os (lit "vmrun") = true ->
        (child os [lit "vmrun"; lit "list"] 60 = StillRunning ->
         late (lit "vmrun") 60 (list_vmware_running_vms os st))
        /\ (child os [lit "vmrun"; lit "-T"; lit "ws"; lit "stop"; vmx_path;
                      if flag then lit "hard" else lit "soft"] 90 = StillRunning ->
            late (lit "vmrun") 90 (stop_vmware_vm os vmx_path (Some flag) st))
        /\ (child os [lit "vmrun"; lit "-T"; lit "ws"; lit "-gu"; guest_user;
                      lit "-gp"; guest_pass; lit "runProgramInGuest"; vmx_path;
                      lit "-activeWindow"; command_to_run] 120 = StillRunning ->
            late (lit "vmrun") 120
              (execute_command_in_vmware_guest os vmx_path guest_user guest_pass
                 command_to_run st))).
Proof.
  intros os st id vmx_path guest_user guest_pass command_to_run flag late.
  subst late. cbv beta. split; intros L; repeat split; intros C.
  - unfold list_vbox_vms. now rewrite (@vm_command_hangs os st _ _ _ None L C).
  - rewrite start_vbox_vm_runs. cbn [default].
    now rewrite (@vm_command_hangs os st _ _ _ (Some 120) L C).
  - rewrite stop_vbox_vm_runs. cbn [default].
    now rewrite (@vm_command_hangs os st _ _ _ (Some 90) L C).
  - unfold list_vmware_running_vms. now rewrite (@vm_command_hangs os st _ _ _ None L C).
  - rewrite stop_vmware_vm_runs. cbn [default].
    now rewrite (@vm_command_hangs os st _ _ _ (Some 90) L C).
  - unfold execute_command_in_vmware_guest.
    now rewrite (@vm_command_hangs os st _ _ _ (Some 120) L C).
Qed.

(** X7 at work: a guest command that never comes back. *)
Lemma X7_every_operation_reports_its_own_deadline_witness :
  fst (execute_command_in_vmware_guest hangs (lit "a.vmx") (lit "user") (lit "secret")
         (lit "ipconfig.exe") idle)
  = Return (false, lit "Erro: O comando " ++ lit "vmrun" ++ lit " excedeu o tempo limite de "
                   ++ str_of_int 120 ++ lit " segundos.").
Proof.
  exact (proj2 (proj2 (proj2 (X7_every_operation_reports_its_own_deadline
                                hangs idle (lit "X") (lit "a.vmx") (lit "user")
                                (lit "secret") (lit "ipconfig.exe") false) eq_refl))
           eq_refl).
Defined.

(** X8. [list_directory_windows] makes one call and nothing else: it asks
    [cmd] to run [dir] on the path, handed over as one argument exactly as
    given (the current directory when omitted), in code page 850 and with
    the default deadline of 30 seconds; it always returns a pair and never
    raises. *)
Theorem X8_list_directory_is_one_dir_call :
  forall (os : OS) (st : Procs) (path : option str),
    let r := list_directory_windows os path st in
    calls (snd r)
    = calls st ++ [{| args := [lit "cmd"; lit "/c"; lit "dir"; default (lit ".") path];
                      encoding := cp850; timeout := 30 |}]
    /\ (exists (b : bool) (text : str), fst r = Return (b, text))
    /\ (located os (lit "cmd") = false ->
        fst r = Return (false,
                        lit "Erro: 'cmd' não encontrado. Verifique a instalação e o PATH.")).
Proof.
  intros os st path r. subst r. unfold list_directory_windows. repeat split.
  - apply execute_command_calls.
  - apply execute_command_pair.
  - intros L. unfold execute_command, try, bind. cbn [default].
    rewrite full_command_cmd.
    now rewrite (run_not_located os (lit "cmd")
                   [lit "/c"; lit "dir"; default (lit ".") path] cp850 30 st L).
Qed.

(** X8 at work: no [cmd] on the machine. *)
Lemma X8_list_directory_is_one_dir_call_witness :
  fst (list_directory_windows bare (Some (lit "C:\Users")) idle)
  = Return (false, lit "Erro: 'cmd' não encontrado. Verifique a instalação e o PATH.").
Proof.
  exact (proj2 (proj2 (X8_list_directory_is_one_dir_call bare idle
                         (Some (lit "C:\Users")))) eq_refl).
Defined.

(** X9. [list_processes_windows] prefers PowerShell: when [Get-Process]
    exits with code 0, its trimmed output is the answer, one call has been
    made and [tasklist] is not started at all. *)
Theorem X9_list_processes_prefers_powershell :
  forall (os : OS) (st : Procs) (out err : bytes),
    located os (lit "powershell") = true ->
    child os [lit "powershell"; lit "-NoProfile"; lit "-Command"; lit "Get-Process"] 30
    = Exits 0 out err ->
    let r := list_processes_windows os st in
    fst r = Return (true, strip (translate_newlines (cp850_decode out)))
    /\ calls (snd r)
       = calls st
         ++ [{| args := [lit "powershell"; lit "-NoProfile"; lit "-Command";
                         lit "Get-Process"];
                encoding := cp850; timeout := 30 |}].
Proof.
  intros os st out err L C r. subst r.
  assert (H : fst (execute_command os [lit "Get-Process"] (Some (lit "powershell")) None st)
              = Return (true, strip (translate_newlines (cp850_decode out)))).
  { unfold execute_command, try, bind. cbn [default]. rewrite full_command_powershell.
    now rewrite (run_exits os (lit "powershell")
                   [lit "-NoProfile"; lit "-Command"; lit "Get-Process"] cp850 30 st
                   (o := cp850_decode out) (e := cp850_decode err) L C eq_refl eq_refl). }
  rewrite (list_processes_first os st H). cbn [fst snd]. split; [reflexivity|].
  apply execute_command_calls.
Qed.

(** X9 at work: PowerShell answers, so one process is enough. *)
Lemma X9_list_processes_prefers_powershell_witness :
  fst (list_processes_windows shell_prints_line idle)
  = Return (true, lit "Volume in drive C")
  /\ List.length (calls (snd (list_processes_windows shell_prints_line idle))) = 1%nat.
Proof.
  destruct (@X9_list_processes_prefers_powershell shell_prints_line idle
              (ascii_bytes "  Volume in drive C" ++ crlf) [] eq_refl eq_refl) as [R Hc].
  split; [exact R|]. rewrite Hc. reflexivity.
Defined.

(** X10. When the PowerShell attempt fails, for whatever reason,
    [list_processes_windows] answers with whatever [cmd /c tasklist] gives,
    success or failure, run on the machine as the first attempt left it;
    the message of the first failure is dropped, and the two calls are
    made in that order with 30 seconds each. *)
Theorem X10_list_processes_falls_back_to_tasklist :
  forall (os : OS) (st : Procs) (first_message : str),
    fst (execute_command os [lit "Get-Process"] (Some (lit "powershell")) None st)
    = Return (false, first_message) ->
    list_processes_windows os st
    = execute_command os [lit "tasklist"] (Some (lit "cmd")) None
        (snd (execute_command os [lit "Get-Process"] (Some (lit "powershell")) None st))
    /\ calls (snd (list_processes_windows os st))
       = calls st
         ++ [{| args := [lit "powershell"; lit "-NoProfile"; lit "-Command";
                         lit "Get-Process"];
                encoding := cp850; timeout := 30 |};
             {| args := [lit "cmd"; lit "/c"; lit "tasklist"];
                encoding := cp850; timeout := 30 |}].
Proof.
  intros os st first_message H.
  rewrite (list_processes_second os st H). split; [reflexivity|].
  rewrite execute_command_calls, execute_command_calls. cbn [default].
  rewrite full_command_cmd, full_command_powershell.
  now rewrite <- app_assoc.
Qed.

(** X10 at work: without PowerShell the answer is the one of [tasklist]. *)
Lemma X10_list_processes_falls_back_to_tasklist_witness :
  fst (list_processes_windows tasklist_only idle)
  = Return (true, lit "System Idle Process    0")
  /\ List.length (calls (snd (list_processes_windows tasklist_only idle))) = 2%nat.
Proof.
  destruct (@X10_list_processes_falls_back_to_tasklist tasklist_only idle
              (lit "Erro: 'powershell' não encontrado. Verifique a instalação e o PATH.")
              eq_refl) as [R Hc].
  split; [rewrite R; reflexivity|]. rewrite Hc. reflexivity.
Defined.

(** X11. [list_processes_windows] never raises and never makes more than
    its two calls; it leaves the processes running as they were; and it
    reports success only if [Get-Process] under PowerShell or [tasklist]
    under [cmd] exited with code 0, the text being the trimmed output of
    that program. *)
Theorem X11_list_processes_is_bounded_and_honest :
  forall (os : OS) (st : Procs),
    let r := list_processes_windows os st in
    (exists (b : bool) (text : str), fst r = Return (b, text))
    /\ (List.length (calls (snd r)) <= List.length (calls st) + 2)%nat
    /\ (tidy st -> tidy (snd r) /\ running (snd r) = running st)
    /\ (forall text : str,
           fst r = Return (true, text) ->
           exists (argv : list str) (out err : bytes),
             (argv = [lit "powershell"; lit "-NoProfile"; lit "-Command"; lit "Get-Process"]
              \/ argv = [lit "cmd"; lit "/c"; lit "tasklist"])
             /\ child os argv 30 = Exits 0 out err
             /\ text = strip (translate_newlines (cp850_decode out))).
Proof.
  intros os st r. subst r.
  destruct (execute_command_pair os [lit "Get-Process"] (Some (lit "powershell")) None st)
    as (b & text1 & H1).
  destruct b.
  - (* the first attempt succeeded *)
    rewrite (list_processes_first os st H1). cbn [fst snd].
    split; [|split; [|split]].
    + now exists true, text1.
    + rewrite execute_command_calls, length_app. cbn [default].
      rewrite full_command_powershell. simpl. lia.
    + intros T. now apply execute_command_tidy.
    + intros text [= <-].
      apply execute_command_true in H1 as (argv & out & err & F & _ & C & ->).
      rewrite full_command_powershell in F. injection F as <-.
      exists [lit "powershell"; lit "-NoProfile"; lit "-Command"; lit "Get-Process"],
        out, err.
      repeat split; [now left|exact C].
  - (* the fallback *)
    rewrite (list_processes_second os st H1).
    set (st1 := snd (execute_command os [lit "Get-Process"] (Some (lit "powershell"))
                       None st)).
    split; [|split; [|split]].
    + apply execute_command_pair.
    + rewrite execute_command_calls, length_app. unfold st1.
      rewrite execute_command_calls, length_app. cbn [default].
      rewrite full_command_cmd, full_command_powershell. simpl. lia.
    + intros T.
      pose proof (@execute_command_tidy os [lit "Get-Process"] (Some (lit "powershell"))
                    None st T) as [T1 R1].
      fold st1 in T1, R1.
      pose proof (@execute_command_tidy os [lit "tasklist"] (Some (lit "cmd")) None
                    st1 T1) as [T2 R2].
      split; [exact T2|]. now rewrite R2.
    + intros text H2.
      apply execute_command_true in H2 as (argv & out & err & F & _ & C & ->).
      rewrite full_command_cmd in F. injection F as <-.
      exists [lit "cmd"; lit "/c"; lit "tasklist"], out, err.
      repeat split; [now right|exact C].
Qed.

(** X11 at work: no PowerShell, so the answer comes from [tasklist], and
    nothing is left running. *)
Lemma X11_list_processes_is_bounded_and_honest_witness :
  running (snd (list_processes_windows tasklist_only idle)) = []
  /\ exists (argv : list str) (out err : bytes),
       (argv = [lit "powershell"; lit "-NoProfile"; lit "-Command"; lit "Get-Process"]
        \/ argv = [lit "cmd"; lit "/c"; lit "tasklist"])
       /\ child tasklist_only argv 30 = Exits 0 out err
       /\ lit "System Idle Process    0" = strip (translate_newlines (cp850_decode out)).
Proof.
  assert (T : tidy idle) by (intros p []).
  split.
  - exact (proj2 (proj1 (proj2 (proj2 (X11_list_processes_is_bounded_and_honest
                                         tasklist_only idle))) T)).
  - apply (proj2 (proj2 (proj2 (X11_list_processes_is_bounded_and_honest
                                  tasklist_only idle)))).
    reflexivity.
Defined.

(** X12. [start_program_windows] fires and forgets.  Whenever [cmd] can
    be located and the launch is not turned down, it answers [True] with
    its acknowledgement, whether or not the program exists and whatever the
    new process goes on to do: the one [Popen] call is [cmd /c start]
    followed by an empty title and the program as given, and one process
    has been created.  Nothing is waited for or ended: every process that
    was running still is, the only one that can have joined them is the
    new one, and [subprocess.run] has not been called.  The answer is the
    same on any two machines that agree on the lookup of [cmd] and on the
    refusal of this launch. *)
Theorem X12_start_program_fires_and_forgets :
  forall (os : OS) (denied : list str -> option str) (program_path : str) (d : Desk),
    let argv := [lit "cmd"; lit "/c"; lit "start"; []; program_path] in
    let r := start_program_windows os denied program_path d in
    (located os (lit "cmd") = true ->
     refusal os denied argv = None ->
     fst r = (true, lit "Comando para iniciar '" ++ program_path ++ lit "' enviado.")
     /\ launches (snd r) = launches d ++ [argv]
     /\ next_pid (procs (snd r)) = S (next_pid (procs d))
     /\ calls (procs (snd r)) = calls (procs d)
     /\ (forall p : nat, In p (running (procs d)) -> In p (running (procs (snd r))))
     /\ (forall p : nat, In p (running (procs (snd r))) ->
           p = next_pid (procs d) \/ In p (running (procs d))))
    /\ (forall (os' : OS) (denied' : list str -> option str),
           located os' (lit "cmd") = located os (lit "cmd") ->
           refusal os' denied' argv = refusal os denied argv ->
           fst (start_program_windows os' denied' program_path d) = fst r).
Proof.
  intros os denied program_path d argv r. subst argv r. split.
  - intros L N. unfold start_program_windows, Popen. cbn [launch_noted procs launches].
    rewrite L, N. cbn [fst snd procs launches let_go next_pid calls running].
    split; [reflexivity|]. split; [reflexivity|]. split; [reflexivity|].
    split; [reflexivity|].
    destruct (exits_at_once os _); split; intros p H.
    + exact H.
    + now right.
    + now right.
    + destruct H as [<-|H]; [now left|now right].
  - intros os' denied' E E'. unfold start_program_windows, Popen.
    rewrite E, E'. destruct (located os (lit "cmd")); [|reflexivity].
    destruct (refusal os denied _); reflexivity.
Qed.

(** X12 at work: a program that does not exist is acknowledged all the
    same, and so it is on a machine where the new process never ends. *)
Lemma X12_start_program_fires_and_forgets_witness :
  fst (start_program_windows cmd_without_the_program never_denied (lit "nothing.exe") clear)
  = (true, lit "Comando para iniciar '" ++ lit "nothing.exe" ++ lit "' enviado.")
  /\ next_pid (procs (snd (start_program_windows cmd_without_the_program never_denied
                             (lit "nothing.exe") clear))) = 1%nat
  /\ fst (start_program_windows hangs (fun _ => None) (lit "nothing.exe") clear)
     = fst (start_program_windows cmd_without_the_program never_denied
              (lit "nothing.exe") clear).
Proof.
  destruct (proj1 (X12_start_program_fires_and_forgets cmd_without_the_program
                     never_denied (lit "nothing.exe") clear) eq_refl eq_refl)
    as (R & _ & Hpid & _).
  split; [exact R|]. split; [exact Hpid|].
  exact (proj2 (X12_start_program_fires_and_forgets cmd_without_the_program
                  never_denied (lit "nothing.exe") clear)
           hangs (fun _ => None) eq_refl eq_refl).
Defined.



(** ** The callers above the executors *)

Import db_manager langchain_agent cli_interface.

(** X14. The agent's two VirtualBox tools never use the forceful options:
    whatever the machine name, [start_vbox_vm] as the agent calls it starts
    the machine with a window ([--type gui], 120 seconds) and
    [stop_vbox_vm] presses the ACPI power button ([acpipowerbutton], 90
    seconds), never [poweroff]; each makes that one call and returns the
    text of the result without raising. *)
Theorem X14_agent_tools_use_the_gentle_options :
  forall (os : OS) (st : Procs) (vm_id : str),
    calls (snd (start_vbox_vm_func os vm_id st))
    = calls st ++ [{| args := [lit "VBoxManage"; lit "startvm"; vm_id; lit "--type";
                               lit "gui"];
                      encoding := utf_8; timeout := 120 |}]
    /\ calls (snd (stop_vbox_vm_func os vm_id st))
       = calls st ++ [{| args := [lit "VBoxManage"; lit "controlvm"; vm_id;
                                  lit "acpipowerbutton"];
                         encoding := utf_8; timeout := 90 |}]
    /\ (exists text : str, fst (start_vbox_vm_func os vm_id st) = Return text)
    /\ (exists text : str, fst (stop_vbox_vm_func os vm_id st) = Return text).
Proof.
  intros os st vm_id.
  unfold start_vbox_vm_func, stop_vbox_vm_func, bind.
  rewrite start_vbox_vm_runs, stop_vbox_vm_runs. cbn [default].
  pose proof (vm_command_calls os
                [lit "VBoxManage"; lit "startvm"; vm_id; lit "--type"; lit "gui"]
                (lit "VBoxManage") (Some 120) st) as Ha.
  pose proof (vm_command_calls os
                [lit "VBoxManage"; lit "controlvm"; vm_id; lit "acpipowerbutton"]
                (lit "VBoxManage") (Some 90) st) as Hb.
  destruct (vm_command_returns os
              [lit "VBoxManage"; lit "startvm"; vm_id; lit "--type"; lit "gui"]
              (lit "VBoxManage") (Some 120) st) as [ra Ra].
  destruct (vm_command_returns os
              [lit "VBoxManage"; lit "controlvm"; vm_id; lit "acpipowerbutton"]
              (lit "VBoxManage") (Some 90) st) as [rb Rb].
  destruct (_execute_vm_command os
              [lit "VBoxManage"; lit "startvm"; vm_id; lit "--type"; lit "gui"]
              (lit "VBoxManage") (Some 120) st) as [oa sa].
  destruct (_execute_vm_command os
              [lit "VBoxManage"; lit "controlvm"; vm_id; lit "acpipowerbutton"]
              (lit "VBoxManage") (Some 90) st) as [ob sb].
  cbn [fst snd] in *. subst oa ob. cbn [fst snd default] in *.
  repeat split; [exact Ha|exact Hb|now eexists|now eexists].
Qed.

(** X15. The placeholder model never asks for a tool the agent does not
    have.  Whatever the prompt and whatever the case mapping, its reply is
    either an action line naming one of the registered tools, followed by
    the line of its input, or the final answer, which begins with
    [Final Answer:] and holds the word [Desculpe]. *)
Theorem X15_placeholder_asks_only_for_registered_tools :
  forall (lower : str -> str) (prompt : str),
    let reply := PlaceholderLLM_invoke lower prompt in
    (exists name input : str,
        In name tool_names
        /\ reply = lit "Action: " ++ name ++ nl ++ lit "Action Input: " ++ input)
    \/ (startswith (lit "Final Answer: ") reply = true
        /\ occurs (lit "Desculpe") reply = true).
Proof.
  intros lower prompt reply. subst reply. unfold PlaceholderLLM_invoke.
  destruct (occurs (lit "liste os arquivos") (lower prompt)).
  { left. exists (lit "list_directory"), (lit "."). split; [|reflexivity].
    simpl. tauto. }
  destruct (occurs (lit "liste processos") (lower prompt)).
  { left. exists (lit "list_processes"), []. split; [|reflexivity].
    simpl. tauto. }
  destruct (occurs (lit "abra o bloco de notas") (lower prompt)).
  { left. exists (lit "start_program"), (lit "notepad.exe"). split; [|reflexivity].
    simpl. tauto. }
  destruct (occurs (lit "liste as vms") (lower prompt)).
  { left. exists (lit "list_vbox_vms"), []. split; [|reflexivity].
    simpl. tauto. }
  right. split; vm_compute; reflexivity.
Qed.

(** X16. With the history table in place and a database that works,
    [process_user_command] answers whatever the agent does, and appends
    exactly one row after the rows already there: the row holds the user's
    input and, as response, the very text returned to the caller; its tool
    output is never filled in; its action is one of [direct_response],
    [inferred_tool_use] and [error]; and it is marked successful only if
    the agent returned and the text holds neither [Desculpe] nor [Erro]. *)
Theorem X16_every_command_is_answered_and_recorded :
  forall (lower : str -> str) (World : Type)
         (agent_invoke : str -> World -> Attempt (option str) * World)
         (disk : Disk) (input : str) (world : World) (rows : list Interaction),
    makedirs_error disk = None ->
    connect_error disk = None ->
    write_error disk = None ->
    exists (response : str) (entry : Interaction),
      process_user_command lower agent_invoke disk input (world, Some rows)
      = (Done response, (snd (agent_invoke input world), Some (rows ++ [entry])))
      /\ user_input entry = input
      /\ agent_response entry = Some response
      /\ tool_output entry = None
      /\ In (agent_action entry)
            [lit "direct_response"; lit "inferred_tool_use"; lit "error"]
      /\ (success entry = true ->
          (exists given, fst (agent_invoke input world) = Done given)
          /\ occurs (lit "Desculpe") response = false
          /\ occurs (lit "Erro") response = false).
Proof.
  intros lower World agent_invoke disk input world rows Hm Hc Hw.
  unfold process_user_command, add_interaction_history, get_db_connection.
  rewrite Hm, Hc, Hw.
  destruct (agent_invoke input world) as [[given|e] world']; cbn [fst snd].
  - set (text := default (lit "Não foi possível gerar uma resposta.") given).
    destruct (negb (occurs (lit "Desculpe") text) && negb (occurs (lit "Erro") text))
      eqn:E.
    + apply andb_true_iff in E as [E1 E2].
      apply negb_true_iff in E1, E2.
      destruct (existsb (fun name => occurs name (lower text)) tool_names);
        eexists; eexists; (split; [reflexivity|]); cbn;
        repeat split; try tauto; now eexists.
    + eexists; eexists; (split; [reflexivity|]); cbn.
      repeat split; try tauto; discriminate.
  - eexists; eexists; (split; [reflexivity|]); cbn.
    repeat split; try tauto; discriminate.
Qed.

(** X16 at work: one question, one row. *)
Lemma X16_every_command_is_answered_and_recorded_witness :
  exists (response : str) (entry : Interaction),
    process_user_command ascii_lower (parrot (lit "Paris")) sound (lit "capital?")
      (0%nat, Some [])
    = (Done response, (1%nat, Some [entry]))
    /\ agent_response entry = Some response
    /\ tool_output entry = None.
Proof.
  destruct (@X16_every_command_is_answered_and_recorded ascii_lower nat
              (parrot (lit "Paris")) sound (lit "capital?") 0%nat []
              eq_refl eq_refl eq_refl)
    as (response & entry & R & _ & Hr & Ht & _).
  exists response, entry. repeat split; [exact R|exact Hr|exact Ht].
Defined.

(** X17. Trouble with the history never changes the answer and is never
    reported.  As long as the data directory can be made, the answer of
    [process_user_command] is the same whatever the state of the database;
    when the table is missing, or the engine raises an error on connecting
    or on writing, the database is left as it was and the interaction is
    lost without a word.  The one thing that does reach the caller is the
    error of making the directory, raised as it is. *)
Theorem X17_history_trouble_is_silent :
  forall (lower : str -> str) (World : Type)
         (agent_invoke : str -> World -> Attempt (option str) * World)
         (disk : Disk) (input : str) (world : World) (db : Db),
    let r := process_user_command lower agent_invoke disk input (world, db) in
    (makedirs_error disk = None ->
     (forall (disk' : Disk) (db' : Db),
         makedirs_error disk' = None ->
         fst (process_user_command lower agent_invoke disk' input (world, db')) = fst r)
     /\ (exists response : str, fst r = Done response)
     /\ (db = None \/ connect_error disk <> None \/ write_error disk <> None ->
         snd (snd r) = db))
    /\ (forall text : str,
           makedirs_error disk = Some text -> fst r = Thrown text /\ snd (snd r) = db).
Proof.
  intros lower World agent_invoke disk input world db r. subst r.
  unfold process_user_command, add_interaction_history, get_db_connection.
  destruct (agent_invoke input world) as [answer world'].
  destruct (match answer with
            | Done response_dict => _
            | Thrown e => _
            end) as [[[action details] response] flag].
  split.
  - intros Hm. rewrite Hm. split; [|split].
    + intros disk' db' Hm'. rewrite Hm'.
      destruct (connect_error disk'), (connect_error disk), db' as [rows'|],
        db as [rows|], (write_error disk'), (write_error disk); reflexivity.
    + destruct (connect_error disk), db as [rows|], (write_error disk); now eexists.
    + intros [->|[H|H]].
      * destruct (connect_error disk); reflexivity.
      * destruct (connect_error disk); [reflexivity|contradiction].
      * destruct (connect_error disk), db as [rows|]; try reflexivity.
        destruct (write_error disk); [reflexivity|contradiction].
  - intros text Hm. rewrite Hm. now split.
Qed.

(** X17 at work: a locked database loses the row, not the answer. *)
Lemma X17_history_trouble_is_silent_witness :
  fst (process_user_command ascii_lower (parrot (lit "Paris")) locked (lit "capital?")
         (0%nat, Some []))
  = Done (lit "Paris")
  /\ snd (snd (process_user_command ascii_lower (parrot (lit "Paris")) locked
                 (lit "capital?") (0%nat, Some []))) = Some [].
Proof.
  destruct (proj1 (@X17_history_trouble_is_silent ascii_lower nat (parrot (lit "Paris"))
                     locked (lit "capital?") 0%nat (Some [])) eq_refl)
    as (Hsame & _ & Hdb).
  split.
  - exact (eq_trans (eq_sym (Hsame sound (Some []) eq_refl)) eq_refl).
  - apply Hdb. right. right. discriminate.
Defined.

(** X18. A failure of the executors that the agent passes on as its
    answer is never recorded as a success.  When the answer is the text of
    a failed [_execute_vm_command], or of an [execute_command] that failed
    under a known shell, [process_user_command] returns that text and
    writes a row marked unsuccessful, with the action [direct_response]. *)
Theorem X18_executor_failures_are_recorded_as_failures :
  forall (lower : str -> str) (World : Type)
         (agent_invoke : str -> World -> Attempt (option str) * World)
         (disk : Disk) (input : str) (world : World) (rows : list Interaction)
         (os : OS) (st : Procs) (command : list str) (shell_type tool_name : str)
         (seconds : option Z) (text : str),
    fst (_execute_vm_command os command tool_name seconds st) = Return (false, text)
    \/ (fst (execute_command os command (Some shell_type) seconds st)
        = Return (false, text)
        /\ (shell_type = lit "cmd" \/ shell_type = lit "powershell")) ->
    fst (agent_invoke input world) = Done (Some text) ->
    makedirs_error disk = None ->
    connect_error disk = None ->
    write_error disk = None ->
    process_user_command lower agent_invoke disk input (world, Some rows)
    = (Done text,
       (snd (agent_invoke input world),
        Some (rows ++ [{| user_input := input;
                          agent_action := lit "direct_response";
                          action_details := None;
                          tool_output := None;
                          agent_response := Some text;
                          success := false |}]))).
Proof.
  intros lower World agent_invoke disk input world rows os st command shell_type
         tool_name seconds text Hfail Hagent Hm Hc Hw.
  assert (E : occurs (lit "Erro") text = true).
  { destruct Hfail as [H|[H Hs]].
    - apply startswith_occurs. exact (vm_command_false _ _ _ _ _ H).
    - destruct (execute_command_false _ _ _ _ _ H) as [E|[F _]].
      + now apply startswith_occurs.
      + exfalso. destruct Hs as [-> | ->].
        * rewrite full_command_cmd in F. discriminate.
        * rewrite full_command_powershell in F. discriminate. }
  unfold process_user_command, add_interaction_history, get_db_connection.
  rewrite Hm, Hc, Hw.
  destruct (agent_invoke input world) as [answer world']. cbn [fst snd] in *.
  subst answer. cbn [default]. rewrite E.
  rewrite andb_false_r. reflexivity.
Qed.

(** X18 at work: the agent repeats the message for a missing tool. *)
Lemma X18_executor_failures_are_recorded_as_failures_witness :
  exists entry : Interaction,
    snd (snd (process_user_command ascii_lower
                (parrot (lit "Erro: Ferramenta " ++ nl ++ lit "              '" ++ lit "vmrun"
                         ++ lit "' não encontrada. Verifique a instalação e o PATH."))
                sound (lit "liste as vms") (0%nat, Some [])))
    = Some [entry]
    /\ success entry = false.
Proof.
  eexists. split.
  - rewrite (@X18_executor_failures_are_recorded_as_failures ascii_lower nat
               (parrot (lit "Erro: Ferramenta " ++ nl ++ lit "              '" ++ lit "vmrun"
                        ++ lit "' não encontrada. Verifique a instalação e o PATH."))
               sound (lit "liste as vms") 0%nat [] bare idle [lit "vmrun"; lit "list"]
               (lit "cmd") (lit "vmrun") None
               (lit "Erro: Ferramenta " ++ nl ++ lit "              '" ++ lit "vmrun"
                ++ lit "' não encontrada. Verifique a instalação e o PATH.")).
    + reflexivity.
    + left. reflexivity.
    + reflexivity.
    + reflexivity.
    + reflexivity.
    + reflexivity.
  - reflexivity.
Defined.

(** X19. [initialize_database] never costs a row: whatever goes wrong or
    right, rows that are in the table stay as they are, and running it a
    second time changes nothing; when nothing goes wrong, the table is
    there afterwards. *)
Theorem X19_initialising_twice_is_harmless :
  forall (disk : Disk) (db : Db),
    let db1 := snd (initialize_database disk db) in
    snd (initialize_database disk db1) = db1
    /\ (forall rows : list Interaction, db = Some rows -> db1 = Some rows)
    /\ (makedirs_error disk = None -> connect_error disk = None ->
        write_error disk = None -> db1 <> None).
Proof.
  intros disk db db1. subst db1.
  unfold initialize_database, get_db_connection.
  destruct (makedirs_error disk), (connect_error disk), (write_error disk),
    db as [rows|]; cbn; repeat split; try congruence; try discriminate.
Qed.

(** X19 at work: a sound disk with no table yet. *)
Lemma X19_initialising_twice_is_harmless_witness :
  snd (initialize_database sound None) <> None.
Proof.
  exact (proj2 (proj2 (X19_initialising_twice_is_harmless sound None))
           eq_refl eq_refl eq_refl).
Defined.

Section CliFacts.

Variable lower : str -> str.
Variable World : Type.
Variable process : str -> World -> Attempt str * World.


Lemma loop_goes_on (fuel : nat) :
  forall (keys : list Key) (world : World) (console : list str),
    forallb (fun k => negb (leaves lower k)) keys = true ->
    loop lower process fuel keys world console = None.
Proof.
  induction fuel as [|fuel IH]; intros keys world console Hk; [reflexivity|].
  destruct keys as [|k keys].
  - cbn [loop]. now apply IH.
  - cbn [forallb] in Hk. apply andb_true_iff in Hk as [Hn Hk].
    apply negb_true_iff in Hn.
    destruct k as [text| |]; cbn in Hn; [|discriminate|].
    + cbn [loop]. rewrite Hn.
      destruct (negb (nonempty (strip text))); [now apply IH|].
      destruct (process text world) as [[response|e] world']; now apply IH.
    + cbn [loop]. now apply IH.
Qed.

End CliFacts.



(** X21. The end of the input does not end the command loop.  When no key
    to come is a line reading [sair] or an interrupt, the loop has not
    ended after any number of rounds: once the input is used up, every
    round meets the end of the input, reports it as an unexpected error
    and starts over. *)
Theorem X21_the_loop_outlives_the_end_of_input :
  forall (lower : str -> str) (World : Type)
         (process : str -> World -> Attempt str * World)
         (keys : list Key) (world : World),
    forallb (fun k => negb (leaves lower k)) keys = true ->
    forall fuel : nat, start_cli lower process fuel keys world = None.
Proof.
  intros lower World process keys world Hk fuel.
  unfold start_cli. now apply loop_goes_on.
Qed.

(** X21 at work: one command piped in and nothing else. *)
Lemma X21_the_loop_outlives_the_end_of_input_witness :
  start_cli ascii_lower echo 1000 [Line (lit "dir")] 0%nat = None.
Proof.
  apply (@X21_the_loop_outlives_the_end_of_input ascii_lower nat echo
           [Line (lit "dir")] 0%nat).
  reflexivity.
Defined.
